(** * ErisPulse-Scaffold: the scaffold generator of [ErisPulseScaffold/cli.py]

    A shallow embedding of the project generator: the string derivations
    on the project name, the text templates of the three creators
    ([ModuleCreator], [CLICreator], [AdapterCreator]), and their effects on
    a file system, followed by the properties of the generator.

    Modelling conventions.
    - A Python [str] is a [string] holding its UTF-8 encoding, which is also
      what [write_text(..., encoding="utf-8")] stores.  The only characters
      the code inspects are ["-"], ["_"] and ["/"]; they are ASCII, so
      [replace] and [split] act on the encoding exactly as on the text.
    - [str.lower] is Python's Unicode lower-casing; it is an interface
      ([PyStr]) whose ASCII behaviour is fixed by a law.
    - [ProjectInfo = Dict[str, str]] is a [gmap string string]; subscripting
      a missing key raises [KeyError].
    - The file system is a finite map from canonical absolute paths to
      nodes (directories and regular files, no symbolic links, POSIX
      semantics).  Exceptions leave the effects made so far in place.
    - Console output (rich panels, the result tree) is not modelled. *)

From Stdlib Require Import Ascii.
From stdpp Require Import gmap strings list fin_maps.


(** ** Python strings *)

Module Str.

(** The double quote, line feed and the characters the code matches. *)
Definition dq : string := String (Ascii.ascii_of_nat 34) "".
Definition nl : string := String (Ascii.ascii_of_nat 10) "".
Definition hyphen : ascii := Eval cbv in Ascii.ascii_of_nat 45.
Definition underscore : ascii := Eval cbv in Ascii.ascii_of_nat 95.
Definition slash : ascii := Eval cbv in Ascii.ascii_of_nat 47.

(** Concatenation of the pieces of an f-string. *)
Definition cat (pieces : list string) : string := foldr String.append "" pieces.

(** A text given line by line, every line closed by a line feed. *)
Definition text (lines : list string) : string :=
  foldr (λ l acc, l +:+ nl +:+ acc) "" lines.

(** A text given line by line, with a line feed between two lines and none
    after the last. *)
Fixpoint join_lines (lines : list string) : string :=
  match lines with
  | [] => ""
  | [l] => l
  | l :: rest => l +:+ nl +:+ join_lines rest
  end.

(** [s.replace(old, new)] for one-character [old] and [new]. *)
Fixpoint replace (old new : ascii) (s : string) : string :=
  match s with
  | "" => ""
  | String c s' =>
      String (if Ascii.eqb c old then new else c) (replace old new s')
  end.

(** [s.split(sep)] for a one-character [sep]: the fields between the
    separators, from left to right; never the empty list. *)
Fixpoint split (sep : ascii) (s : string) : list string :=
  match s with
  | "" => [""]
  | String c s' =>
      if Ascii.eqb c sep then "" :: split sep s'
      else match split sep s' with
           | [] => [String c ""]
           | w :: ws => String c w :: ws
           end
  end.

(** [l[-1]] on a list of strings.  [split] never returns the empty list
    ([split_not_nil]), so the [IndexError] of the subscript does not arise
    in this program and the default is never taken. *)
Definition item_last (l : list string) : string := List.last l "".

(** Lower-casing of one ASCII byte; bytes outside [A-Z] are kept. *)
Definition lower_ascii (c : ascii) : ascii :=
  let n := Ascii.nat_of_ascii c in
  if (65 <=? n)%nat && (n <=? 90)%nat then Ascii.ascii_of_nat (n + 32) else c.

Fixpoint ascii_lower (s : string) : string :=
  match s with
  | "" => ""
  | String c s' => String (lower_ascii c) (ascii_lower s')
  end.

Fixpoint is_ascii (s : string) : bool :=
  match s with
  | "" => true
  | String c s' => (Ascii.nat_of_ascii c <? 128)%nat && is_ascii s'
  end.

Fixpoint contains (c : ascii) (s : string) : bool :=
  match s with
  | "" => false
  | String d s' => Ascii.eqb d c || contains c s'
  end.

End Str.

(** [str.lower]: Unicode lower-casing, known here through its action on
    ASCII text. *)
Class PyStr := {
  str_lower : string → string;
  str_lower_ascii : ∀ s, Str.is_ascii s = true → str_lower s = Str.ascii_lower s
}.

(** The instance used to run the model on ASCII names. *)
#[export] Instance ascii_PyStr : PyStr :=
  {| str_lower := Str.ascii_lower; str_lower_ascii := λ s _, eq_refl |}.

(** ** The derived identifiers of a project name *)

(** [project_info['name'].replace("-", "_")] *)
Definition package_identifier (name : string) : string :=
  Str.replace Str.hyphen Str.underscore name.

(** [project_info['name'].split('-')[-1]] *)
Definition short_name (name : string) : string :=
  Str.item_last (Str.split Str.hyphen name).

(** ** Exceptions and the two monads *)

(** A path as [pathlib] holds it: anchored at the root or relative, and its
    components. *)
Record Path := mkPath { absolute : bool; parts : list string }.

#[export] Instance Path_eq_dec : EqDecision Path.
Proof. solve_decision. Defined.

(** The exceptions of the model: the [KeyError] of a dictionary lookup and
    the [OSError]s of path resolution.  What else the interpreter can raise
    (for a name with a NUL or too long, for text that cannot be encoded,
    in the console) is not modelled. *)
Inductive exn :=
  | KeyError (key : string)
  | FileExistsError (p : Path)
  | FileNotFoundError (p : Path)
  | NotADirectoryError (p : Path)
  | IsADirectoryError (p : Path).

#[export] Instance exn_eq_dec : EqDecision exn.
Proof. solve_decision. Defined.

(** The outcome of a computation that may raise. *)
Inductive result (A : Type) :=
  | Ok (a : A)
  | Raise (e : exn).
Arguments Ok {A} a.
Arguments Raise {A} e.

#[export] Instance result_ret : MRet result := λ A a, Ok a.
#[export] Instance result_bind : MBind result := λ A B f m,
  match m with Ok a => f a | Raise e => Raise e end.

(** [d[key]] *)
Definition getitem (d : gmap string string) (key : string) : result string :=
  match d !! key with
  | Some v => Ok v
  | None => Raise (KeyError key)
  end.

(** A stateful computation over a state [S] that may raise; an exception
    keeps the state reached when it was raised. *)
Definition M (S A : Type) : Type := S → result A * S.

#[export] Instance M_ret {S} : MRet (M S) := λ A a s, (Ok a, s).
#[export] Instance M_bind {S} : MBind (M S) := λ A B f m s,
  match m s with
  | (Ok a, s') => f a s'
  | (Raise e, s') => (Raise e, s')
  end.

(** A pure computation inside a stateful one. *)
Definition lift {S A} (r : result A) : M S A := λ s, (r, s).

(** The value of a Python call, as far as this program returns any. *)
Inductive pyvalue :=
  | PyNone
  | PyPaths (l : list Path).

(** ** pathlib and the file system *)

(** [Path(s)]: the components between slashes, empty ones and ["."]
    dropped, [".."] kept. *)
Definition Path_of (s : string) : Path :=
  {| absolute := match s with String c _ => Ascii.eqb c Str.slash | "" => false end;
     parts := filter (λ c, c ≠ "" ∧ c ≠ ".") (Str.split Str.slash s) |}.

(** [p / s] *)
Definition truediv (p : Path) (s : string) : Path :=
  let q := Path_of s in
  if absolute q then q
  else {| absolute := absolute p; parts := parts p ++ parts q |}.

(** [p.parent]; a path without components is its own parent. *)
Definition Path_parent (p : Path) : Path :=
  {| absolute := absolute p; parts := removelast (parts p) |}.

Inductive node :=
  | Dir
  | File (content : string).

(** The effects on the file system, at canonical locations. *)
Inductive event :=
  | Mkdir (loc : list string)
  | WriteText (loc : list string) (content : string).

#[export] Instance node_eq_dec : EqDecision node.
Proof. solve_decision. Defined.
#[export] Instance event_eq_dec : EqDecision event.
Proof. solve_decision. Defined.

(** The world of a run: the working directory, the nodes of the file
    system by canonical location (the root [[]] is always a directory),
    and the effects made so far, oldest first. *)
Record World := mkWorld {
  cwd : list string;
  files : gmap (list string) node;
  trace : list event
}.

Inductive errno := ENOENT | ENOTDIR.

Definition os_error (e : errno) (p : Path) : exn :=
  match e with
  | ENOENT => FileNotFoundError p
  | ENOTDIR => NotADirectoryError p
  end.

Inductive located :=
  | At (loc : list string)
  | Fail (e : errno).

Definition node_at (fs : gmap (list string) node) (loc : list string) : option node :=
  match loc with
  | [] => Some Dir
  | _ => fs !! loc
  end.

(** One step of path resolution from the directory [cur]. *)
Definition enter (cur : list string) (c : string) : list string :=
  if decide (c = "..") then removelast cur else cur ++ [c].

(** Resolution of the components [comps], each of which must lead to a
    directory. *)
Fixpoint walk (fs : gmap (list string) node) (cur comps : list string) : located :=
  match comps with
  | [] => At cur
  | c :: rest =>
      match node_at fs (enter cur c) with
      | None => Fail ENOENT
      | Some (File _) => Fail ENOTDIR
      | Some Dir => walk fs (enter cur c) rest
      end
  end.

(** The location a path names: all components but the last are resolved
    to directories; the last one need not exist. *)
Definition locate (w : World) (p : Path) : located :=
  match walk (files w) (if absolute p then [] else cwd w) (removelast (parts p)) with
  | Fail e => Fail e
  | At d =>
      match last (parts p) with
      | None => At d
      | Some c => At (enter d c)
      end
  end.

(** [os.mkdir(p)]; a component is taken as it is, whatever its length and
    its characters. *)
Definition os_mkdir (p : Path) : M World unit := λ w,
  match locate w p with
  | Fail e => (Raise (os_error e p), w)
  | At loc =>
      match node_at (files w) loc with
      | Some _ => (Raise (FileExistsError p), w)
      | None =>
          (Ok (), {| cwd := cwd w;
                     files := <[loc := Dir]> (files w);
                     trace := trace w ++ [Mkdir loc] |})
      end
  end.

(** [p.is_dir()] *)
Definition is_dir (p : Path) (w : World) : bool :=
  match locate w p with
  | Fail _ => false
  | At loc =>
      match node_at (files w) loc with
      | Some Dir => true
      | _ => false
      end
  end.

(** [p.mkdir(parents=False, exist_ok=exist_ok)] *)
Definition mkdir (exist_ok : bool) (p : Path) : M World unit := λ w,
  match os_mkdir p w with
  | (Raise (FileNotFoundError q), w') => (Raise (FileNotFoundError q), w')
  | (Raise e, w') =>
      if exist_ok && is_dir p w' then (Ok (), w') else (Raise e, w')
  | r => r
  end.

(** [p.mkdir(parents=True, exist_ok=exist_ok)], by recursion on the
    components of [p] from the last one: when the parent is missing it is
    made first, with [parents=True, exist_ok=True], and [p] after it. *)
Fixpoint mkdir_parents_from (abs : bool) (rparts : list string) (exist_ok : bool)
    : M World unit := λ w,
  let p := {| absolute := abs; parts := rev rparts |} in
  match os_mkdir p w with
  | (Raise (FileNotFoundError q), w') =>
      match rparts with
      | [] => (Raise (FileNotFoundError q), w')
      | _ :: rparent =>
          match mkdir_parents_from abs rparent true w' with
          | (Ok _, w'') => mkdir exist_ok p w''
          | r => r
          end
      end
  | (Raise e, w') =>
      if exist_ok && is_dir p w' then (Ok (), w') else (Raise e, w')
  | r => r
  end.

Definition mkdir_parents (exist_ok : bool) (p : Path) : M World unit :=
  mkdir_parents_from (absolute p) (rev (parts p)) exist_ok.

(** [p.write_text(data)]: the file is created or truncated and [data]
    stored, in one step (encoding [data] is not modelled); the count that
    Python returns is not used by the program. *)
Definition write_text (p : Path) (data : string) : M World unit := λ w,
  match locate w p with
  | Fail e => (Raise (os_error e p), w)
  | At loc =>
      match node_at (files w) loc with
      | Some Dir => (Raise (IsADirectoryError p), w)
      | _ =>
          (Ok (), {| cwd := cwd w;
                     files := <[loc := File data]> (files w);
                     trace := trace w ++ [WriteText loc data] |})
      end
  end.

(** ** The templates and the creators *)

(** The text of the generated [LICENSE], the same in the three creators. *)
Definition license_content : string :=
  Str.join_lines
    [
     "MIT License";
     "";
     "Copyright (c) [year] [fullname]";
     "";
     "Permission is hereby granted..."
    ].

(** The f-string of [_create_readme], the same in the three creators. *)
Definition readme_content (project_info : gmap string string) : result string :=
  name ← getitem project_info "name";
  description ← getitem project_info "description";
  mret (Str.cat ["# "; name; Str.nl; Str.nl; description]).

Module ModuleCreator.

(** [content] of [ModuleCreator._create_pyproject] *)
Definition pyproject_content (project_info : gmap string string) : result string :=
  name ← getitem project_info "name";
  version ← getitem project_info "version";
  description ← getitem project_info "description";
  author_name ← getitem project_info "author_name";
  author_email ← getitem project_info "author_email";
  homepage ← getitem project_info "homepage";
  mret (Str.text
    [
     "[project]";
     Str.cat ["name = "; Str.dq; name; Str.dq];
     Str.cat ["version = "; Str.dq; version; Str.dq];
     Str.cat ["description = "; Str.dq; description; Str.dq];
     Str.cat ["readme = "; Str.dq; "README.md"; Str.dq];
     Str.cat ["requires-python = "; Str.dq; ">=3.9"; Str.dq];
     Str.cat ["license = { file = "; Str.dq; "LICENSE"; Str.dq; " }"];
     Str.cat ["authors = [ { name = "; Str.dq; author_name; Str.dq; ", email = "; Str.dq; author_email; Str.dq; " } ]"];
     "";
     "dependencies = [";
     "]";
     "";
     "[project.urls]";
     Str.cat [Str.dq; "homepage"; Str.dq; " = "; Str.dq; homepage; Str.dq];
     "";
     Str.cat ["[project.entry-points."; Str.dq; "erispulse.module"; Str.dq; "]"];
     Str.cat [Str.dq; Str.item_last (Str.split Str.hyphen name); Str.dq; " = "; Str.dq; Str.replace Str.hyphen Str.underscore name; ":Main"; Str.dq]
    ]).

(** [content] of [ModuleCreator._create_core_file] *)
Definition core_content (project_info : gmap string string) : result string :=
  name ← getitem project_info "name";
  let module_name := Str.item_last (Str.split Str.hyphen name) in
  mret (Str.text
    [
     "# 你也可以直接导入对应的模块";
     "# from ErisPulse import sdk";
     "# from ErisPulse.Core import logger, env, raiserr, adapter";
     "";
     "class Main:";
     "    def __init__(self, sdk):    # 这里也可以不接受sdk参数";
     "        self.sdk = sdk";
     "        self.env = self.sdk.env";
     "        self.logger = self.sdk.logger";
     "        ";
     Str.cat ["        self.logger.info("; Str.dq; module_name; " 初始化完成"; Str.dq; ")"];
     "        self.config = self._load_config()";
     "    ";
     "    # 加载配置方法，你需要在这里进行必要的配置加载逻辑";
     "    def _load_config(self):";
     Str.cat ["        _config = self.env.getConfig("; Str.dq; module_name; Str.dq; ", {})"];
     "        if _config is None:";
     "            default_config = {";
     Str.cat ["                "; Str.dq; "key"; Str.dq; ": "; Str.dq; "value"; Str.dq; ","];
     Str.cat ["                "; Str.dq; "key2"; Str.dq; ": [1, 2, 3],"];
     Str.cat ["                "; Str.dq; "key3"; Str.dq; ": {"];
     Str.cat ["                    "; Str.dq; "key4"; Str.dq; ": "; Str.dq; "value4"; Str.dq];
     "                }";
     "            }";
     Str.cat ["            self.env.setConfig("; Str.dq; module_name; Str.dq; ", default_config)"];
     "            return default_config";
     "        return _config";
     "            ";
     "    def hello(self):";
     Str.cat ["        self.logger.info("; Str.dq; "Hello World!"; Str.dq; ")"];
     Str.cat ["        # 其它模块可以通过 sdk."; module_name; ".hello() 调用此方法"]
    ]).

(** The text written by [ModuleCreator._create_init_file] *)
Definition init_content : string := "from .Core import Main".

(** [ModuleCreator._create_pyproject] *)
Definition _create_pyproject (base_dir : Path) (project_info : gmap string string)
    : M World pyvalue :=
  content ← lift (pyproject_content project_info);
  write_text (truediv base_dir "pyproject.toml") content;;
  mret PyNone.

(** [ModuleCreator._create_readme] *)
Definition _create_readme (base_dir : Path) (project_info : gmap string string)
    : M World pyvalue :=
  content ← lift (readme_content project_info);
  write_text (truediv base_dir "README.md") content;;
  mret PyNone.

(** [ModuleCreator._create_license] *)
Definition _create_license (base_dir : Path) : M World pyvalue :=
  write_text (truediv base_dir "LICENSE") license_content;;
  mret PyNone.

(** [ModuleCreator._create_core_file] *)
Definition _create_core_file (module_dir : Path) (project_info : gmap string string)
    : M World pyvalue :=
  content ← lift (core_content project_info);
  write_text (truediv module_dir "Core.py") content;;
  mret PyNone.

(** [ModuleCreator._create_init_file] *)
Definition _create_init_file (module_dir : Path) (project_info : gmap string string)
    : M World pyvalue :=
  write_text (truediv module_dir "__init__.py") init_content;;
  mret PyNone.

(** [ModuleCreator.create] *)
Definition create (base_dir : Path) (project_info : gmap string string)
    : M World pyvalue :=
  name ← lift (getitem project_info "name");
  let module_dir := truediv base_dir (Str.replace Str.hyphen Str.underscore name) in
  mkdir false module_dir;;
  _create_pyproject base_dir project_info;;
  _create_readme base_dir project_info;;
  _create_license base_dir;;
  _create_core_file module_dir project_info;;
  _create_init_file module_dir project_info;;
  mret PyNone.

End ModuleCreator.

Module CLICreator.
Section with_str.
Context `{PyStr}.

(** [content] of [CLICreator._create_pyproject] *)
Definition pyproject_content (project_info : gmap string string) : result string :=
  name ← getitem project_info "name";
  version ← getitem project_info "version";
  description ← getitem project_info "description";
  author_name ← getitem project_info "author_name";
  author_email ← getitem project_info "author_email";
  homepage ← getitem project_info "homepage";
  mret (Str.text
    [
     "[project]";
     Str.cat ["name = "; Str.dq; name; Str.dq];
     Str.cat ["version = "; Str.dq; version; Str.dq];
     Str.cat ["description = "; Str.dq; description; Str.dq];
     Str.cat ["readme = "; Str.dq; "README.md"; Str.dq];
     Str.cat ["requires-python = "; Str.dq; ">=3.9"; Str.dq];
     Str.cat ["license = { file = "; Str.dq; "LICENSE"; Str.dq; " }"];
     Str.cat ["authors = [ { name = "; Str.dq; author_name; Str.dq; ", email = "; Str.dq; author_email; Str.dq; " } ]"];
     "";
     "dependencies = [";
     Str.cat ["    "; Str.dq; "ErisPulse>=2.1.6"; Str.dq];
     "]";
     "";
     "[project.urls]";
     Str.cat [Str.dq; "homepage"; Str.dq; " = "; Str.dq; homepage; Str.dq];
     "";
     Str.cat ["[project.entry-points."; Str.dq; "erispulse.cli"; Str.dq; "]"];
     Str.cat [Str.dq; str_lower (Str.item_last (Str.split Str.hyphen name)); Str.dq; " = "; Str.dq; Str.replace Str.hyphen Str.underscore name; ":cli_register"; Str.dq]
    ]).

(** [content] of [CLICreator._create_cli_file] *)
Definition cli_content (project_info : gmap string string) : result string :=
  name ← getitem project_info "name";
  let command_name := str_lower (Str.item_last (Str.split Str.hyphen name)) in
  description ← getitem project_info "description";
  mret (Str.text
    [
     "import argparse";
     "from typing import Any";
     "from rich.panel import Panel";
     "from rich.console import Console";
     "";
     "def cli_register(subparsers: Any, console: Console) -> None:";
     Str.cat ["    "; Str.dq; Str.dq; Str.dq];
     "    注册自定义CLI命令";
     "    ";
     "    参数:";
     "        subparsers: argparse的子命令解析器";
     "        console: 主CLI提供的控制台输出实例";
     Str.cat ["    "; Str.dq; Str.dq; Str.dq];
     "    # 创建命令解析器";
     "    parser = subparsers.add_parser(";
     Str.cat ["        '"; command_name; "',  # 命令名称"];
     Str.cat ["        help='"; description; "'"];
     "    )";
     "    ";
     "    # 添加参数";
     "    parser.add_argument(";
     "        '--option',";
     "        type=str,";
     "        default='default',";
     "        help='选项描述'";
     "    )";
     "    ";
     "    # 命令处理函数";
     "    def handle_command(args: argparse.Namespace):";
     "        try:";
     Str.cat ["            console.print(Panel("; Str.dq; "命令开始执行"; Str.dq; ", style="; Str.dq; "info"; Str.dq; "))"];
     "            ";
     "            # 你的命令逻辑";
     Str.cat ["            console.print(f"; Str.dq; "执行操作，选项值: {args.option}"; Str.dq; ")"];
     "            ";
     Str.cat ["            console.print(Panel("; Str.dq; "命令执行完成"; Str.dq; ", style="; Str.dq; "success"; Str.dq; "))"];
     "        except Exception as e:";
     Str.cat ["            console.print(Panel(f"; Str.dq; "错误: {e}"; Str.dq; ", style="; Str.dq; "error"; Str.dq; "))"];
     "            raise";
     "    ";
     "    # 设置处理函数";
     "    parser.set_defaults(func=handle_command)"
    ]).

(** The text written by [CLICreator._create_init_file] *)
Definition init_content : string := "from .cli import cli_register".

(** [CLICreator._create_pyproject] *)
Definition _create_pyproject (base_dir : Path) (project_info : gmap string string)
    : M World pyvalue :=
  content ← lift (pyproject_content project_info);
  write_text (truediv base_dir "pyproject.toml") content;;
  mret PyNone.

(** [CLICreator._create_readme] *)
Definition _create_readme (base_dir : Path) (project_info : gmap string string)
    : M World pyvalue :=
  content ← lift (readme_content project_info);
  write_text (truediv base_dir "README.md") content;;
  mret PyNone.

(** [CLICreator._create_license] *)
Definition _create_license (base_dir : Path) : M World pyvalue :=
  write_text (truediv base_dir "LICENSE") license_content;;
  mret PyNone.

(** [CLICreator._create_cli_file] *)
Definition _create_cli_file (module_dir : Path) (project_info : gmap string string)
    : M World pyvalue :=
  content ← lift (cli_content project_info);
  write_text (truediv module_dir "cli.py") content;;
  mret PyNone.

(** [CLICreator._create_init_file] *)
Definition _create_init_file (module_dir : Path) (project_info : gmap string string)
    : M World pyvalue :=
  write_text (truediv module_dir "__init__.py") init_content;;
  mret PyNone.

(** [CLICreator.create] *)
Definition create (base_dir : Path) (project_info : gmap string string)
    : M World pyvalue :=
  name ← lift (getitem project_info "name");
  let module_dir := truediv base_dir (Str.replace Str.hyphen Str.underscore name) in
  mkdir false module_dir;;
  _create_pyproject base_dir project_info;;
  _create_readme base_dir project_info;;
  _create_license base_dir;;
  _create_cli_file module_dir project_info;;
  _create_init_file module_dir project_info;;
  mret PyNone.

End with_str.
End CLICreator.

Module AdapterCreator.
Section with_str.
Context `{PyStr}.

(** [content] of [AdapterCreator._create_pyproject] *)
Definition pyproject_content (project_info : gmap string string) : result string :=
  name ← getitem project_info "name";
  version ← getitem project_info "version";
  description ← getitem project_info "description";
  author_name ← getitem project_info "author_name";
  author_email ← getitem project_info "author_email";
  homepage ← getitem project_info "homepage";
  mret (Str.text
    [
     "[project]";
     Str.cat ["name = "; Str.dq; name; Str.dq];
     Str.cat ["version = "; Str.dq; version; Str.dq];
     Str.cat ["description = "; Str.dq; description; Str.dq];
     Str.cat ["readme = "; Str.dq; "README.md"; Str.dq];
     Str.cat ["requires-python = "; Str.dq; ">=3.9"; Str.dq];
     Str.cat ["license = { file = "; Str.dq; "LICENSE"; Str.dq; " }"];
     Str.cat ["authors = [ { name = "; Str.dq; author_name; Str.dq; ", email = "; Str.dq; author_email; Str.dq; " } ]"];
     "";
     "dependencies = [";
     "]";
     "";
     "[project.urls]";
     Str.cat [Str.dq; "homepage"; Str.dq; " = "; Str.dq; homepage; Str.dq];
     "";
     Str.cat ["[project.entry-points."; Str.dq; "erispulse.adapter"; Str.dq; "]"];
     Str.cat [Str.dq; Str.item_last (Str.split Str.hyphen name); Str.dq; " = "; Str.dq; Str.replace Str.hyphen Str.underscore name; ":"; Str.item_last (Str.split Str.hyphen name); Str.dq]
    ]).

(** [content] of [AdapterCreator._create_core_file] *)
Definition core_content (project_info : gmap string string) : result string :=
  name ← getitem project_info "name";
  let adapter_name := Str.item_last (Str.split Str.hyphen name) in
  mret (Str.text
    [
     "import asyncio";
     "from typing import Optional";
     "from ErisPulse.Core import BaseAdapter";
     "# 你也可以直接导入对应的模块";
     "# from ErisPulse import sdk";
     "# from ErisPulse.Core import logger, env, raiserr, adapter";
     "";
     Str.cat ["class "; adapter_name; "(BaseAdapter):"];
     "    def __init__(self, sdk):    # 这里也可以不接受sdk参数";
     "        self.sdk = sdk";
     "        self.env = self.sdk.env";
     "        self.logger = self.sdk.logger";
     "        ";
     Str.cat ["        self.logger.info("; Str.dq; adapter_name; " 初始化完成"; Str.dq; ")"];
     "        self.config = self._load_config()";
     "    ";
     "    # 加载配置方法，你需要在这里进行必要的配置加载逻辑";
     "    def _load_config(self):";
     Str.cat ["        _config = self.env.getConfig("; Str.dq; adapter_name; Str.dq; ", {})"];
     "        if _config is None:";
     "            default_config = {";
     Str.cat ["                "; Str.dq; "mode"; Str.dq; ": "; Str.dq; "server"; Str.dq; ","];
     Str.cat ["                "; Str.dq; "server"; Str.dq; ": {"];
     Str.cat ["                    "; Str.dq; "path"; Str.dq; ": "; Str.dq; "/webhook"; Str.dq; ","];
     "                },";
     Str.cat ["                "; Str.dq; "client"; Str.dq; ": {"];
     Str.cat ["                    "; Str.dq; "url"; Str.dq; ": "; Str.dq; "http://127.0.0.1:8080"; Str.dq; ","];
     Str.cat ["                    "; Str.dq; "token"; Str.dq; ": "; Str.dq; Str.dq];
     "                }";
     "            }";
     Str.cat ["            self.env.setConfig("; Str.dq; adapter_name; Str.dq; ", default_config)"];
     "            return default_config";
     "        return _config";
     "    ";
     "    class Send(BaseAdapter.Send):";
     "        def Text(self, text: str):";
     "            return asyncio.create_task(";
     "                self._adapter.call_api(";
     Str.cat ["                    endpoint="; Str.dq; "/send"; Str.dq; ","];
     "                    content=text,";
     "                    recvId=self._target_id,";
     "                    recvType=self._target_type";
     "                )";
     "            )";
     "            ";
     "        def Image(self, file: bytes):";
     "            return asyncio.create_task(";
     "                self._adapter.call_api(";
     Str.cat ["                    endpoint="; Str.dq; "/send_image"; Str.dq; ","];
     "                    file=file,";
     "                    recvId=self._target_id,";
     "                    recvType=self._target_type";
     "                )";
     "            )";
     "";
     "    async def call_api(self, endpoint: str, **params):";
     "        raise NotImplementedError()";
     "";
     "    async def start(self):";
     "        raise NotImplementedError()";
     "        ";
     "    async def shutdown(self):";
     "        raise NotImplementedError()"
    ]).

(** [content] of [AdapterCreator._create_converter_file] *)
Definition converter_content (project_info : gmap string string) : result string :=
  name ← getitem project_info "name";
  let adapter_name := str_lower (Str.item_last (Str.split Str.hyphen name)) in
  mret (Str.text
    [
     "import time";
     "from typing import Optional";
     "";
     Str.cat ["class "; Str.item_last (Str.split Str.hyphen name); "Converter:"];
     "    def convert(self, raw_event: dict) -> Optional[dict]:";
     Str.cat ["        "; Str.dq; Str.dq; Str.dq; "将平台原生事件转换为OneBot12标准格式"; Str.dq; Str.dq; Str.dq];
     "        if not isinstance(raw_event, dict):";
     "            return None";
     "";
     "        # 基础事件结构";
     "        onebot_event = {";
     Str.cat ["            "; Str.dq; "id"; Str.dq; ": str(raw_event.get("; Str.dq; "event_id"; Str.dq; ", "; Str.dq; "generated_id"; Str.dq; ")),"];
     Str.cat ["            "; Str.dq; "time"; Str.dq; ": int(time.time()),"];
     Str.cat ["            "; Str.dq; "type"; Str.dq; ": "; Str.dq; Str.dq; ",  # message/notice/request/meta_event"];
     Str.cat ["            "; Str.dq; "detail_type"; Str.dq; ": "; Str.dq; Str.dq; ","];
     Str.cat ["            "; Str.dq; "platform"; Str.dq; ": "; Str.dq; adapter_name; Str.dq; ","];
     Str.cat ["            "; Str.dq; "self"; Str.dq; ": {"];
     Str.cat ["                "; Str.dq; "platform"; Str.dq; ": "; Str.dq; adapter_name; Str.dq; ","];
     Str.cat ["                "; Str.dq; "user_id"; Str.dq; ": str(raw_event.get("; Str.dq; "bot_id"; Str.dq; ", "; Str.dq; Str.dq; "))"];
     "            },";
     Str.cat ["            "; Str.dq; adapter_name; "_raw"; Str.dq; ": raw_event  # 保留原始数据"];
     "        }";
     "";
     "        # 根据事件类型分发处理";
     Str.cat ["        event_type = raw_event.get("; Str.dq; "type"; Str.dq; ")"];
     Str.cat ["        if event_type == "; Str.dq; "message"; Str.dq; ":"];
     "            return self._handle_message(raw_event, onebot_event)";
     Str.cat ["        elif event_type == "; Str.dq; "notice"; Str.dq; ":"];
     "            return self._handle_notice(raw_event, onebot_event)";
     "        ";
     "        return None";
     "";
     "    def _handle_message(self, raw_event: dict, onebot_event: dict) -> dict:";
     Str.cat ["        "; Str.dq; Str.dq; Str.dq; "处理消息事件"; Str.dq; Str.dq; Str.dq];
     Str.cat ["        onebot_event["; Str.dq; "type"; Str.dq; "] = "; Str.dq; "message"; Str.dq];
     "        # 添加你的消息处理逻辑";
     "        return onebot_event";
     "";
     "    def _handle_notice(self, raw_event: dict, onebot_event: dict) -> dict:";
     Str.cat ["        "; Str.dq; Str.dq; Str.dq; "处理通知事件"; Str.dq; Str.dq; Str.dq];
     Str.cat ["        onebot_event["; Str.dq; "type"; Str.dq; "] = "; Str.dq; "notice"; Str.dq];
     "        # 添加你的通知处理逻辑";
     "        return onebot_event"
    ]).

(** The f-string written by [AdapterCreator._create_init_file] *)
Definition init_content (project_info : gmap string string) : result string :=
  name ← getitem project_info "name";
  let adapter_name := Str.item_last (Str.split Str.hyphen name) in
  mret (Str.cat ["from .Core import "; adapter_name]).

(** [AdapterCreator._create_pyproject] *)
Definition _create_pyproject (base_dir : Path) (project_info : gmap string string)
    : M World pyvalue :=
  content ← lift (pyproject_content project_info);
  write_text (truediv base_dir "pyproject.toml") content;;
  mret PyNone.

(** [AdapterCreator._create_readme] *)
Definition _create_readme (base_dir : Path) (project_info : gmap string string)
    : M World pyvalue :=
  content ← lift (readme_content project_info);
  write_text (truediv base_dir "README.md") content;;
  mret PyNone.

(** [AdapterCreator._create_license] *)
Definition _create_license (base_dir : Path) : M World pyvalue :=
  write_text (truediv base_dir "LICENSE") license_content;;
  mret PyNone.

(** [AdapterCreator._create_core_file] *)
Definition _create_core_file (module_dir : Path) (project_info : gmap string string)
    : M World pyvalue :=
  content ← lift (core_content project_info);
  write_text (truediv module_dir "Core.py") content;;
  mret PyNone.

(** [AdapterCreator._create_converter_file] *)
Definition _create_converter_file (module_dir : Path) (project_info : gmap string string)
    : M World pyvalue :=
  content ← lift (converter_content project_info);
  write_text (truediv module_dir "Converter.py") content;;
  mret PyNone.

(** [AdapterCreator._create_init_file] *)
Definition _create_init_file (module_dir : Path) (project_info : gmap string string)
    : M World pyvalue :=
  content ← lift (init_content project_info);
  write_text (truediv module_dir "__init__.py") content;;
  mret PyNone.

(** [AdapterCreator.create] *)
Definition create (base_dir : Path) (project_info : gmap string string)
    : M World pyvalue :=
  name ← lift (getitem project_info "name");
  let module_dir := truediv base_dir (Str.replace Str.hyphen Str.underscore name) in
  mkdir false module_dir;;
  _create_pyproject base_dir project_info;;
  _create_readme base_dir project_info;;
  _create_license base_dir;;
  _create_core_file module_dir project_info;;
  _create_converter_file module_dir project_info;;
  _create_init_file module_dir project_info;;
  mret PyNone.

End with_str.
End AdapterCreator.

(** ** ScaffoldGenerator *)

(** The three creator classes, the values of the [creators] dictionary. *)
Inductive creator_class :=
  | cls_ModuleCreator
  | cls_CLICreator
  | cls_AdapterCreator.

#[export] Instance creator_class_eq_dec : EqDecision creator_class.
Proof. solve_decision. Defined.

(** What the prompts of [_collect_project_info] returned: the six
    [Prompt.ask] answers after the type, and the [Confirm.ask] answer. *)
Record Answers := mkAnswers {
  ans_type : string;
  ans_name : string;
  ans_version : string;
  ans_description : string;
  ans_author_name : string;
  ans_author_email : string;
  ans_homepage : string;
  ans_confirm : bool
}.

Module ScaffoldGenerator.
Section with_str.
Context `{PyStr}.

(** [ScaffoldGenerator._collect_project_info]: the dictionary of the
    answers, or the empty dictionary when the confirmation is declined. *)
Definition _collect_project_info (a : Answers) : gmap string string :=
  let info : gmap string string :=
    <["type" := ans_type a]> (
    <["name" := ans_name a]> (
    <["version" := ans_version a]> (
    <["description" := ans_description a]> (
    <["author_name" := ans_author_name a]> (
    <["author_email" := ans_author_email a]> (
    <["homepage" := ans_homepage a]> ∅)))))) in
  if ans_confirm a then info else ∅.

(** The dictionary [creators] of [_create_project_structure]. *)
Definition creators : gmap string creator_class :=
  <["module" := cls_ModuleCreator]> (
  <["cli" := cls_CLICreator]> (
  <["adapter" := cls_AdapterCreator]> ∅)).

(** [creators[key]] *)
Definition creators_getitem (key : string) : result creator_class :=
  match creators !! key with
  | Some c => Ok c
  | None => Raise (KeyError key)
  end.

(** [creator.create(base_dir, project_info)], by the class of [creator]. *)
Definition creator_create (c : creator_class) (base_dir : Path)
    (project_info : gmap string string) : M World pyvalue :=
  match c with
  | cls_ModuleCreator => ModuleCreator.create base_dir project_info
  | cls_CLICreator => CLICreator.create base_dir project_info
  | cls_AdapterCreator => AdapterCreator.create base_dir project_info
  end.

(** [ScaffoldGenerator._create_project_structure].  The closing call of
    [_display_result] only reads the tree and prints; it is left out. *)
Definition _create_project_structure (output_dir : string)
    (project_info : gmap string string) : M World pyvalue :=
  name ← lift (getitem project_info "name");
  let base_dir := truediv (Path_of output_dir) name in
  mkdir_parents true base_dir;;
  type ← lift (getitem project_info "type");
  creator ← lift (creators_getitem type);
  creator_create creator base_dir project_info;;
  mret PyNone.

(** [ScaffoldGenerator.handle_scaffold], with [args.output] and the
    answers of the prompts.  The [except] clause prints the exception and
    raises it again, so exceptions pass through unchanged. *)
Definition handle_scaffold (output : string) (a : Answers) : M World pyvalue :=
  let project_info := _collect_project_info a in
  if decide (project_info = ∅) then mret PyNone
  else _create_project_structure output project_info.

End with_str.
End ScaffoldGenerator.

(** ** The creators as template sets *)

(** One file of a creator: the text is computed, then written. *)
Definition emit (p : Path) (content : result string) : M World pyvalue :=
  s ← lift content;
  write_text p s;;
  mret PyNone.

(** Files written one after the other; the first exception ends the run. *)
Fixpoint emit_all (l : list (Path * result string)) : M World pyvalue :=
  match l with
  | [] => mret PyNone
  | (p, content) :: l' => emit p content;; emit_all l'
  end.

Section template_sets.
Context `{PyStr}.

(** The files of each creator in the order [create] writes them, after
    the package directory has been made ([creator_create_template_set]). *)
Definition template_set (c : creator_class) (base_dir module_dir : Path)
    (project_info : gmap string string) : list (Path * result string) :=
  match c with
  | cls_ModuleCreator =>
      [(truediv base_dir "pyproject.toml", ModuleCreator.pyproject_content project_info);
       (truediv base_dir "README.md", readme_content project_info);
       (truediv base_dir "LICENSE", Ok license_content);
       (truediv module_dir "Core.py", ModuleCreator.core_content project_info);
       (truediv module_dir "__init__.py", Ok ModuleCreator.init_content)]
  | cls_CLICreator =>
      [(truediv base_dir "pyproject.toml", CLICreator.pyproject_content project_info);
       (truediv base_dir "README.md", readme_content project_info);
       (truediv base_dir "LICENSE", Ok license_content);
       (truediv module_dir "cli.py", CLICreator.cli_content project_info);
       (truediv module_dir "__init__.py", Ok CLICreator.init_content)]
  | cls_AdapterCreator =>
      [(truediv base_dir "pyproject.toml", AdapterCreator.pyproject_content project_info);
       (truediv base_dir "README.md", readme_content project_info);
       (truediv base_dir "LICENSE", Ok license_content);
       (truediv module_dir "Core.py", AdapterCreator.core_content project_info);
       (truediv module_dir "Converter.py", AdapterCreator.converter_content project_info);
       (truediv module_dir "__init__.py", AdapterCreator.init_content project_info)]
  end.

(** The manifest and the package [__init__] of a creator. *)
Definition pyproject_content (c : creator_class) (project_info : gmap string string)
    : result string :=
  match c with
  | cls_ModuleCreator => ModuleCreator.pyproject_content project_info
  | cls_CLICreator => CLICreator.pyproject_content project_info
  | cls_AdapterCreator => AdapterCreator.pyproject_content project_info
  end.

Definition init_content (c : creator_class) (project_info : gmap string string)
    : result string :=
  match c with
  | cls_ModuleCreator => Ok ModuleCreator.init_content
  | cls_CLICreator => Ok CLICreator.init_content
  | cls_AdapterCreator => AdapterCreator.init_content project_info
  end.

(** The entry-point table of a manifest: its group, the registration key
    and the symbol the value names. *)
Definition entry_point_group (c : creator_class) : string :=
  match c with
  | cls_ModuleCreator => "erispulse.module"
  | cls_CLICreator => "erispulse.cli"
  | cls_AdapterCreator => "erispulse.adapter"
  end.

Definition entry_point_key (c : creator_class) (name : string) : string :=
  match c with
  | cls_ModuleCreator => short_name name
  | cls_CLICreator => str_lower (short_name name)
  | cls_AdapterCreator => short_name name
  end.

Definition entry_point_symbol (c : creator_class) (name : string) : string :=
  match c with
  | cls_ModuleCreator => "Main"
  | cls_CLICreator => "cli_register"
  | cls_AdapterCreator => short_name name
  end.

(** The module of the package that [__init__] imports from. *)
Definition source_module (c : creator_class) : string :=
  match c with
  | cls_ModuleCreator => "Core"
  | cls_CLICreator => "cli"
  | cls_AdapterCreator => "Core"
  end.

(** The last two lines of a manifest: the table header and the
    registration [key = "package:symbol"]. *)
Definition entry_point_table (group key package symbol : string) : string :=
  Str.text
    [Str.cat ["[project.entry-points."; Str.dq; group; Str.dq; "]"];
     Str.cat [Str.dq; key; Str.dq; " = "; Str.dq; package; ":"; symbol; Str.dq]].

End template_sets.

(** The keys of a project dictionary, and the dictionaries that have them
    all. *)
Definition fields : list string :=
  ["type"; "name"; "version"; "description"; "author_name"; "author_email";
   "homepage"].

Definition has_fields (project_info : gmap string string) : bool :=
  forallb (λ k, match project_info !! k with Some _ => true | None => false end)
    fields.

(** [p.exists()] *)
Definition path_exists (p : Path) (w : World) : bool :=
  match locate w p with
  | Fail _ => false
  | At loc =>
      match node_at (files w) loc with
      | Some _ => true
      | None => false
      end
  end.

(** [w'] has the working directory of [w] and all its directories. *)
Definition dirs_le (w w' : World) : Prop :=
  cwd w' = cwd w ∧
  ∀ q, node_at (files w) q = Some Dir → node_at (files w') q = Some Dir.

(** The world after a node has been stored at [loc]. *)
Definition store (loc : list string) (n : node) (ev : event) (w : World) : World :=
  {| cwd := cwd w; files := <[loc := n]> (files w); trace := trace w ++ [ev] |}.

(** From [w] to [w'] directories were made and nothing else happened. *)
Definition only_made_dirs (w w' : World) : Prop :=
  cwd w' = cwd w ∧
  (∃ locs, trace w' = trace w ++ (Mkdir <$> locs)) ∧
  ∀ q, files w' !! q = files w !! q ∨
       (files w !! q = None ∧ files w' !! q = Some Dir).

(** The files of [fs] after the texts [items] have been stored in turn. *)
Definition stored (items : list (list string * string))
    (fs : gmap (list string) node) : gmap (list string) node :=
  foldl (λ fs it, <[it.1 := File it.2]> fs) fs items.

(** The paths of the written files, from the effects on the file system. *)
Definition written (evs : list event) : list (list string) :=
  omap (λ ev, match ev with WriteText loc _ => Some loc | Mkdir _ => None end) evs.

Section outcomes.
Context `{PyStr}.

(** From [w] to [w'] the build of [project_info] under [output] made
    directories and then wrote the template set of its creator, in order,
    each text at the place its path names. *)
Definition wrote_template_set (output : string) (project_info : gmap string string)
    (w w' : World) : Prop :=
  ∃ name type c dirs items,
    project_info !! "name" = Some name ∧
    project_info !! "type" = Some type ∧
    ScaffoldGenerator.creators !! type = Some c ∧
    Forall2 (λ pc it, pc.2 = Ok it.2 ∧ locate w' pc.1 = At it.1)
      (template_set c (truediv (Path_of output) name)
         (truediv (truediv (Path_of output) name) (package_identifier name))
         project_info) items ∧
    trace w' = trace w ++ (Mkdir <$> dirs) ++ ((λ it, WriteText it.1 it.2) <$> items).

(** In [w'] every path of the template set of [project_info] names a
    regular file that holds the generated text. *)
Definition holds_template_set (output : string) (project_info : gmap string string)
    (w' : World) : Prop :=
  ∃ name type c,
    project_info !! "name" = Some name ∧
    project_info !! "type" = Some type ∧
    ScaffoldGenerator.creators !! type = Some c ∧
    ∀ p content,
      (p, content) ∈ template_set c (truediv (Path_of output) name)
         (truediv (truediv (Path_of output) name) (package_identifier name))
         project_info →
      ∃ loc s, content = Ok s ∧ locate w' p = At loc ∧
               files w' !! loc = Some (File s).

End outcomes.

(** ** Worlds and inputs to run the model on *)

Definition project (type name description : string) : gmap string string :=
  <["type" := type]> (
  <["name" := name]> (
  <["version" := "1.0.0"]> (
  <["description" := description]> (
  <["author_name" := "yourname"]> (
  <["author_email" := "your@mail.com"]> (
  <["homepage" := "https://github.com/yourname/" +:+ name]> ∅)))))).

Definition weather (description author_name author_email homepage : string)
    : gmap string string :=
  <["type" := "module"]> (
  <["name" := "ErisPulse-Weather"]> (
  <["version" := "1.0.0"]> (
  <["description" := description]> (
  <["author_name" := author_name]> (
  <["author_email" := author_email]> (
  <["homepage" := homepage]> ∅)))))).

(** A world with nothing in it but the root, which is the working
    directory. *)
Definition empty_world : World := {| cwd := []; files := ∅; trace := [] |}.

(** A world where the directory [ErisPulse-Demo] exists and holds a
    [README.md] of the user. *)
Definition used_world : World :=
  {| cwd := [];
     files := <[["ErisPulse-Demo"] := Dir]> (
              <[["ErisPulse-Demo"; "README.md"] := File "my notes"]> ∅);
     trace := [] |}.

(** A world where a project and its package directory are in place. *)
Definition packaged_world : World :=
  {| cwd := [];
     files := <[["ErisPulse-Demo"] := Dir]> (
              <[["ErisPulse-Demo"; "ErisPulse_Demo"] := Dir]> ∅);
     trace := [] |}.

(** Answers that decline the confirmation. *)
Definition declined : Answers :=
  {| ans_type := "module"; ans_name := "ErisPulse-Module"; ans_version := "1.0.0";
     ans_description := "demo"; ans_author_name := "yourname";
     ans_author_email := "your@mail.com";
     ans_homepage := "https://github.com/yourname/ErisPulse-Module";
     ans_confirm := false |}.

(** ** Notions for the further properties *)

(** A name that is one path component: without a slash, and not empty,
    ["."] or [".."]. *)
Definition plain_component (s : string) : bool :=
  negb (Str.contains Str.slash s) && bool_decide (s ≠ "") &&
  bool_decide (s ≠ ".") && bool_decide (s ≠ "..").

(** Every node other than the root lies in a directory. *)
Definition world_ok (w : World) : Prop :=
  ∀ q c, is_Some (files w !! (q ++ [c])) → node_at (files w) q = Some Dir.

(** The exceptions that come from the file system. *)
Definition is_os_error (e : exn) : bool :=
  match e with
  | KeyError _ => false
  | _ => true
  end.


(** The files at the root of a generated project. *)
Definition root_files : list string := ["pyproject.toml"; "README.md"; "LICENSE"].

(** From [w] to [w'] nothing was removed: directories are still
    directories, files are still files, and a file has another text only
    where the effects [evs] made in between wrote one. *)
Definition kept (w w' : World) : Prop :=
  cwd w' = cwd w ∧
  ∃ evs,
    trace w' = trace w ++ evs ∧
    ∀ q,
      match files w !! q with
      | None => True
      | Some Dir => files w' !! q = Some Dir
      | Some (File s) =>
          files w' !! q = Some (File s) ∨
          (q ∈ written evs ∧ ∃ s', files w' !! q = Some (File s'))
      end.

(** The path can be written: its text is there, its directory exists, and
    no directory is in its place. *)
Definition writable (w : World) (pc : Path * result string) : Prop :=
  ∃ s loc, pc.2 = Ok s ∧ locate w pc.1 = At loc ∧
           node_at (files w) loc ≠ Some Dir.

Section further_notions.
Context `{PyStr}.

(** The source file of a creator that its [__init__] imports from, and
    the line of that file that defines the imported symbol. *)
Definition source_content (c : creator_class) (project_info : gmap string string)
    : result string :=
  match c with
  | cls_ModuleCreator => ModuleCreator.core_content project_info
  | cls_CLICreator => CLICreator.cli_content project_info
  | cls_AdapterCreator => AdapterCreator.core_content project_info
  end.

Definition definition_line (c : creator_class) (name : string) : string :=
  match c with
  | cls_ModuleCreator => "class Main:"
  | cls_CLICreator => "def cli_register(subparsers: Any, console: Console) -> None:"
  | cls_AdapterCreator => Str.cat ["class "; short_name name; "(BaseAdapter):"]
  end.

(** The lines between the brackets of [dependencies] in a manifest. *)
Definition dependency_lines (c : creator_class) : list string :=
  match c with
  | cls_CLICreator => [Str.cat ["    "; Str.dq; "ErisPulse>=2.1.6"; Str.dq]]
  | _ => []
  end.

End further_notions.

(** The directory [p] names, every component of [p] resolved. *)
Definition dir_at (w : World) (p : Path) (o : list string) : Prop :=
  walk (files w) (if absolute p then [] else cwd w) (parts p) = At o.

(** Answers that accept the defaults of a module project. *)
Definition accepted : Answers :=
  {| ans_type := "module"; ans_name := "ErisPulse-Demo"; ans_version := "1.0.0";
     ans_description := "demo"; ans_author_name := "yourname";
     ans_author_email := "your@mail.com";
     ans_homepage := "https://github.com/yourname/ErisPulse-Demo";
     ans_confirm := true |}.

(** A world as a file system has it: every node lies in a directory, and
    the working directory is one. *)
Definition healthy (w : World) : Prop :=
  world_ok w ∧ node_at (files w) (cwd w) = Some Dir.




(** * Properties *)

(** ** Strings: replacement and splitting *)

Section str_facts.
Variable sep : ascii.

Lemma split_not_nil s : Str.split sep s ≠ [].
Proof.
  destruct s as [|c s]; simpl; [done|].
  destruct (Ascii.eqb c sep); [done|].
  by destruct (Str.split sep s).
Qed.

Lemma contains_app_sep pre suf :
  Str.contains sep (pre +:+ String sep suf) = true.
Proof.
  induction pre as [|c pre IH]; simpl.
  - by rewrite Ascii.eqb_refl.
  - rewrite IH. by destruct (Ascii.eqb c sep).
Qed.

(** A text without the separator is a single field. *)
Lemma split_no_sep s : Str.contains sep s = false → Str.split sep s = [s].
Proof.
  induction s as [|c s IH]; simpl; [done|].
  destruct (Ascii.eqb c sep); simpl; [done|].
  intros Hs. by rewrite IH.
Qed.

(** A single field is the whole text, and has no separator. *)
Lemma split_single s w :
  Str.split sep s = [w] → s = w ∧ Str.contains sep s = false.
Proof.
  revert w. induction s as [|c s IH]; simpl; intros w.
  - by intros [= <-].
  - destruct (Ascii.eqb c sep) eqn:Hc.
    + intros [= _ Hnil]. by apply split_not_nil in Hnil.
    + destruct (Str.split sep s) as [|w' ws] eqn:Hsp; [by apply split_not_nil in Hsp|].
      intros [= <- ->]. destruct (IH w' eq_refl) as [-> ->]. done.
Qed.

(** The last field has no separator; it is the whole text, or what
    follows the last separator. *)
Lemma split_last_spec s :
  let t := Str.item_last (Str.split sep s) in
  Str.contains sep t = false ∧
  ((Str.contains sep s = false ∧ t = s) ∨ ∃ pre, s = pre +:+ String sep t).
Proof.
  unfold Str.item_last.
  induction s as [|c s IH]; simpl; [by split; [|left]|].
  destruct IH as [Ht IH].
  destruct (Ascii.eqb c sep) eqn:Hc.
  - apply Ascii.eqb_eq in Hc as ->.
    destruct (Str.split sep s) as [|w ws] eqn:Hsp; [by apply split_not_nil in Hsp|].
    change (List.last ("" :: w :: ws) "") with (List.last (w :: ws) "").
    split; [done|]. right.
    destruct IH as [[_ ->]|[pre ->]]; [by exists ""|].
    by exists (String sep pre).
  - destruct (Str.split sep s) as [|w [|w2 ws]] eqn:Hsp.
    + by apply split_not_nil in Hsp.
    + simpl in *. destruct (split_single _ _ Hsp) as [-> Hs].
      rewrite Hc, Hs. by split; [|left].
    + change (List.last (String c w :: w2 :: ws) "") with (List.last (w :: w2 :: ws) "").
      split; [done|]. right.
      destruct IH as [[Hs _]|[pre ->]]; [|by exists (String c pre)].
      apply split_no_sep in Hs. congruence.
Qed.

(** After a separator followed by a text without one, that text is the
    last field. *)
Lemma split_last_after pre suf :
  Str.contains sep suf = false →
  Str.item_last (Str.split sep (pre +:+ String sep suf)) = suf.
Proof.
  intros Hsuf. unfold Str.item_last.
  assert (∃ l : list string, l ≠ [] ∧
    Str.split sep (pre +:+ String sep suf) = l ++ Str.split sep suf) as (l & Hl & ->).
  { induction pre as [|c pre (l & Hl & IH)]; simpl.
    - rewrite Ascii.eqb_refl. by exists [""].
    - rewrite IH. destruct (Ascii.eqb c sep); [by exists ("" :: l)|].
      destruct l as [|w l]; [done|]. by exists (String c w :: l). }
  rewrite (split_no_sep _ Hsuf). apply last_last.
Qed.

Lemma replace_length new s :
  String.length (Str.replace sep new s) = String.length s.
Proof. induction s; simpl; congruence. Qed.

Lemma replace_get new s i :
  String.get i (Str.replace sep new s) =
  (λ c, if Ascii.eqb c sep then new else c) <$> String.get i s.
Proof.
  revert i. induction s as [|c s IH]; simpl; intros i; [done|].
  destruct i; simpl; [done|]. apply IH.
Qed.

Lemma replace_contains new s :
  new ≠ sep → Str.contains sep (Str.replace sep new s) = false.
Proof.
  intros Hne. induction s as [|c s IH]; simpl; [done|].
  rewrite IH, orb_false_r.
  destruct (Ascii.eqb c sep) eqn:Hc; [|done].
  by apply Ascii.eqb_neq.
Qed.

End str_facts.

Lemma is_ascii_app_r pre s :
  Str.is_ascii (pre +:+ s) = true → Str.is_ascii s = true.
Proof.
  induction pre as [|c pre IH]; [done|].
  change (String c pre +:+ s) with (String c (pre +:+ s)). simpl.
  intros [_ Hs]%andb_true_iff. by apply IH.
Qed.

(** The short name of an ASCII name is ASCII, so its lower-casing is the
    ASCII one whatever the instance of [PyStr]. *)
Lemma short_name_is_ascii name :
  Str.is_ascii name = true → Str.is_ascii (short_name name) = true.
Proof.
  intros Hname.
  destruct (split_last_spec Str.hyphen name) as [_ [[_ Heq]|[pre Heq]]].
  - unfold short_name. by rewrite Heq.
  - rewrite Heq in Hname. apply is_ascii_app_r in Hname.
    exact Hname.
Qed.

Lemma str_lower_short_name `{PyStr} name :
  Str.is_ascii name = true →
  str_lower (short_name name) = Str.ascii_lower (short_name name).
Proof. intros Hname. by apply str_lower_ascii, short_name_is_ascii. Qed.

(** ** The manifests *)

Lemma append_assoc (s1 s2 s3 : string) : (s1 +:+ s2) +:+ s3 = s1 +:+ (s2 +:+ s3).
Proof.
  induction s1 as [|c s1 IH]; [done|].
  change (String c ((s1 +:+ s2) +:+ s3) = String c (s1 +:+ s2 +:+ s3)).
  by rewrite IH.
Qed.

Lemma text_app (l1 l2 : list string) :
  Str.text (l1 ++ l2) = Str.text l1 +:+ Str.text l2.
Proof.
  induction l1 as [|l l1 IH]; simpl; [done|].
  by rewrite IH, !append_assoc.
Qed.

Lemma has_fields_lookup (project_info : gmap string string) k :
  has_fields project_info = true → k ∈ fields → is_Some (project_info !! k).
Proof.
  unfold has_fields. rewrite forallb_forall. intros Hall Hk.
  apply list_elem_of_In, Hall in Hk. by destruct (project_info !! k).
Qed.

Lemma getitem_Some (d : gmap string string) k v :
  d !! k = Some v → getitem d k = Ok v.
Proof. unfold getitem. by intros ->. Qed.

Lemma getitem_None (d : gmap string string) k :
  d !! k = None → getitem d k = Raise (KeyError k).
Proof. unfold getitem. by intros ->. Qed.

(** Replaces the subscripts of a dictionary that has all its fields by
    their values. *)
Ltac field_lookups Hf :=
  repeat match goal with
  | |- context [getitem ?d ?k] =>
      let v := fresh "v" in let Hv := fresh "Hv" in
      destruct (has_fields_lookup d k Hf ltac:(by vm_compute; set_solver)) as [v Hv];
      rewrite !(getitem_Some d k v Hv)
  end;
  cbn [mbind result_bind]; unfold mret, result_ret.

Section manifests.
Context `{PyStr}.

(** The manifest of every creator ends with the entry-point table of its
    group, which maps the key of the creator to [package:symbol]. *)
Lemma pyproject_entry_point c (project_info : gmap string string) name :
  has_fields project_info = true →
  project_info !! "name" = Some name →
  ∃ head, pyproject_content c project_info =
    Ok (head +:+ entry_point_table (entry_point_group c) (entry_point_key c name)
                   (package_identifier name) (entry_point_symbol c name)).
Proof.
  intros Hf Hname.
  destruct c; unfold pyproject_content, ModuleCreator.pyproject_content,
    CLICreator.pyproject_content, AdapterCreator.pyproject_content;
    rewrite !(getitem_Some _ _ _ Hname); field_lookups Hf.
  all: match goal with
       | |- context [Ok (Str.text ?l)] =>
           exists (Str.text (take (length l - 2) l))
       end.
  all: unfold entry_point_table; rewrite <- text_app; reflexivity.
Qed.

End manifests.

Lemma creators_lookup ty c :
  ScaffoldGenerator.creators !! ty = Some c →
  (ty = "module" ∧ c = cls_ModuleCreator) ∨
  (ty = "cli" ∧ c = cls_CLICreator) ∨
  (ty = "adapter" ∧ c = cls_AdapterCreator).
Proof.
  unfold ScaffoldGenerator.creators. rewrite !lookup_insert, lookup_empty.
  repeat case_decide; naive_solver.
Qed.

(** ** Running stateful computations *)

Lemma bind_run {S A B} (m : M S A) (f : A → M S B) (s : S) :
  (m ≫= f) s =
  match m s with
  | (Ok a, s') => f a s'
  | (Raise e, s') => (Raise e, s')
  end.
Proof. reflexivity. Qed.

Lemma bind_ok_inv {S A B} (m : M S A) (f : A → M S B) (s s' : S) b :
  (m ≫= f) s = (Ok b, s') →
  ∃ a s1, m s = (Ok a, s1) ∧ f a s1 = (Ok b, s').
Proof.
  rewrite bind_run. destruct (m s) as [[a|e] s1]; [|done]. by exists a, s1.
Qed.

(** ** Path resolution *)

Lemma walk_mono fs fs' cur comps d :
  (∀ q, node_at fs q = Some Dir → node_at fs' q = Some Dir) →
  walk fs cur comps = At d → walk fs' cur comps = At d.
Proof.
  intros Hle. revert cur.
  induction comps as [|c comps IH]; simpl; intros cur; [done|].
  destruct (node_at fs (enter cur c)) as [[|s]|] eqn:Hn; [|done|done].
  rewrite (Hle _ Hn). apply IH.
Qed.

Lemma dirs_le_refl w : dirs_le w w.
Proof. by split. Qed.

Lemma dirs_le_trans w1 w2 w3 : dirs_le w1 w2 → dirs_le w2 w3 → dirs_le w1 w3.
Proof. intros [Hc1 H1] [Hc2 H2]. split; [congruence|auto]. Qed.

Lemma locate_mono w w' p loc :
  dirs_le w w' → locate w p = At loc → locate w' p = At loc.
Proof.
  intros [Hcwd Hle]. unfold locate. rewrite Hcwd.
  destruct (walk (files w) _ _) as [d|e] eqn:Hw; [|done].
  by rewrite (walk_mono _ _ _ _ _ Hle Hw).
Qed.

Lemma is_dir_spec p w :
  is_dir p w = true ↔ ∃ loc, locate w p = At loc ∧ node_at (files w) loc = Some Dir.
Proof.
  unfold is_dir. split.
  - destruct (locate w p) as [loc|]; [|done].
    destruct (node_at (files w) loc) as [[|]|] eqn:Hn; [|done..]. by exists loc.
  - by intros (loc & -> & ->).
Qed.

Lemma is_dir_mono w w' p : dirs_le w w' → is_dir p w = true → is_dir p w' = true.
Proof.
  intros Hle. rewrite !is_dir_spec. intros (loc & Hloc & Hn).
  exists loc. split; [by eapply locate_mono|]. by apply Hle.
Qed.

Lemma is_dir_exists p w : is_dir p w = true → path_exists p w = true.
Proof.
  rewrite is_dir_spec. intros (loc & Hloc & Hn).
  unfold path_exists. by rewrite Hloc, Hn.
Qed.

(** Storing a directory, or storing anything where no directory was,
    keeps the directories. *)
Lemma store_dirs_le loc n ev w :
  n = Dir ∨ node_at (files w) loc ≠ Some Dir → dirs_le w (store loc n ev w).
Proof.
  intros Hn. split; [done|]. intros q Hq. destruct q as [|c q]; [done|].
  simpl in *. destruct (decide (loc = c :: q)) as [->|Hne].
  - destruct Hn as [->|Hn]; [by rewrite lookup_insert_eq|done].
  - by rewrite lookup_insert_ne.
Qed.

Lemma node_at_store loc n ev w :
  loc ≠ [] → node_at (files (store loc n ev w)) loc = Some n.
Proof. destruct loc; [done|]. intros _. simpl. by rewrite lookup_insert_eq. Qed.

(** ** The primitives of the file system *)

Lemma os_mkdir_ok_inv p w u w' :
  os_mkdir p w = (Ok u, w') →
  ∃ loc, locate w p = At loc ∧ node_at (files w) loc = None ∧
         w' = store loc Dir (Mkdir loc) w.
Proof.
  unfold os_mkdir. destruct (locate w p) as [loc|e]; [|done].
  destruct (node_at (files w) loc) eqn:Hn; [done|].
  intros [= _ <-]. by exists loc.
Qed.

Lemma os_mkdir_raise_inv p w e w' : os_mkdir p w = (Raise e, w') → w' = w.
Proof.
  unfold os_mkdir. destruct (locate w p) as [loc|]; [|by intros [= _ <-]].
  destruct (node_at (files w) loc); [by intros [= _ <-]|done].
Qed.

Lemma os_mkdir_exists p w :
  path_exists p w = true → os_mkdir p w = (Raise (FileExistsError p), w).
Proof.
  unfold path_exists, os_mkdir. destruct (locate w p) as [loc|]; [|done].
  by destruct (node_at (files w) loc).
Qed.

Lemma mkdir_false p w : mkdir false p w = os_mkdir p w.
Proof.
  unfold mkdir. destruct (os_mkdir p w) as [[u|e] w']; [done|]. by destruct e.
Qed.

Lemma node_at_None_ne fs loc : node_at fs loc = None → loc ≠ [].
Proof. by destruct loc. Qed.

Lemma os_mkdir_ok_is_dir p w u w' :
  os_mkdir p w = (Ok u, w') → dirs_le w w' ∧ is_dir p w' = true.
Proof.
  intros (loc & Hloc & Hn & ->)%os_mkdir_ok_inv.
  assert (dirs_le w (store loc Dir (Mkdir loc) w)) as Hle
    by (apply store_dirs_le; by left).
  split; [done|]. apply is_dir_spec. exists loc.
  split; [by eapply locate_mono|].
  apply node_at_store. by eapply node_at_None_ne.
Qed.

Lemma mkdir_ok_is_dir exist_ok p w u w' :
  mkdir exist_ok p w = (Ok u, w') → dirs_le w w' ∧ is_dir p w' = true.
Proof.
  unfold mkdir. destruct (os_mkdir p w) as [[u'|e] w1] eqn:Hos.
  - intros [= _ <-]. by eapply os_mkdir_ok_is_dir.
  - apply os_mkdir_raise_inv in Hos as ->.
    destruct e; try done;
      (destruct (exist_ok && is_dir p w) eqn:Hd; [|done]; intros [= _ <-];
       apply andb_true_iff in Hd as [_ Hd]; by split; [apply dirs_le_refl|]).
Qed.

(** [mkdir] on an existing directory with [exist_ok] does nothing. *)
Lemma mkdir_exist_ok p w : is_dir p w = true → mkdir true p w = (Ok (), w).
Proof.
  intros Hd. unfold mkdir.
  rewrite (os_mkdir_exists _ _ (is_dir_exists _ _ Hd)). by rewrite Hd.
Qed.

Lemma mkdir_parents_from_ok abs rparts exist_ok w u w' :
  mkdir_parents_from abs rparts exist_ok w = (Ok u, w') →
  dirs_le w w' ∧ is_dir {| absolute := abs; parts := rev rparts |} w' = true.
Proof.
  revert exist_ok w u w'.
  induction rparts as [|c rparent IH]; intros exist_ok w u w'; simpl.
  - destruct (os_mkdir _ w) as [[u'|e] w1] eqn:Hos.
    + intros [= _ <-]. by eapply (os_mkdir_ok_is_dir (mkPath abs [])).
    + apply os_mkdir_raise_inv in Hos as ->.
      destruct e; try done;
        (destruct (exist_ok && is_dir _ w) eqn:Hd; [|done]; intros [= _ <-];
         apply andb_true_iff in Hd as [_ Hd]; by split; [apply dirs_le_refl|]).
  - destruct (os_mkdir _ w) as [[u'|e] w1] eqn:Hos.
    + intros [= _ <-]. by eapply os_mkdir_ok_is_dir.
    + apply os_mkdir_raise_inv in Hos as ->.
      destruct e; try done;
        try (destruct (exist_ok && is_dir _ w) eqn:Hd; [|done]; intros [= _ <-];
             apply andb_true_iff in Hd as [_ Hd]; by split; [apply dirs_le_refl|]).
      destruct (mkdir_parents_from abs rparent true w) as [[u1|e1] w1] eqn:Hrec;
        [|done].
      intros Hmk. apply IH in Hrec as [Hle1 _].
      apply mkdir_ok_is_dir in Hmk as [Hle2 Hd].
      split; [by eapply dirs_le_trans|done].
Qed.

(** [mkdir(parents=True, exist_ok=True)] on an existing directory does
    nothing. *)
Lemma mkdir_parents_from_exist_ok abs rparts w :
  is_dir {| absolute := abs; parts := rev rparts |} w = true →
  mkdir_parents_from abs rparts true w = (Ok (), w).
Proof.
  intros Hd. pose proof (os_mkdir_exists _ _ (is_dir_exists _ _ Hd)) as Hos.
  destruct rparts as [|c rparent]; simpl in *; by rewrite Hos, Hd.
Qed.

Lemma mkdir_parents_exist_ok p w :
  is_dir p w = true → mkdir_parents true p w = (Ok (), w).
Proof.
  intros Hd. apply mkdir_parents_from_exist_ok.
  rewrite rev_involutive. by destruct p.
Qed.

Lemma mkdir_parents_ok p exist_ok w u w' :
  mkdir_parents exist_ok p w = (Ok u, w') → dirs_le w w' ∧ is_dir p w' = true.
Proof.
  intros Hmk%mkdir_parents_from_ok. rewrite rev_involutive in Hmk.
  by destruct p.
Qed.

Lemma only_made_dirs_refl w : only_made_dirs w w.
Proof. split; [done|]. split; [|by left]. exists []. by rewrite app_nil_r. Qed.

Lemma only_made_dirs_trans w1 w2 w3 :
  only_made_dirs w1 w2 → only_made_dirs w2 w3 → only_made_dirs w1 w3.
Proof.
  intros (Hc1 & [l1 Ht1] & Hf1) (Hc2 & [l2 Ht2] & Hf2).
  split; [congruence|]. split.
  - exists (l1 ++ l2). by rewrite Ht2, Ht1, fmap_app, app_assoc.
  - intros q. destruct (Hf1 q) as [H1|[H1 H1']], (Hf2 q) as [H2|[H2 H2']];
      [left|right|right|]; try split; congruence.
Qed.

Lemma os_mkdir_only_made_dirs p w r w' :
  os_mkdir p w = (r, w') → only_made_dirs w w'.
Proof.
  destruct r as [u|e].
  - intros (loc & _ & Hn & ->)%os_mkdir_ok_inv.
    split; [done|]. split; [by exists [loc]|]. intros q. simpl.
    destruct (decide (loc = q)) as [<-|Hne]; [|left; by rewrite lookup_insert_ne].
    right. rewrite lookup_insert_eq. split; [|done].
    destruct loc; [done|]. exact Hn.
  - intros ->%os_mkdir_raise_inv. apply only_made_dirs_refl.
Qed.

Lemma mkdir_only_made_dirs exist_ok p w r w' :
  mkdir exist_ok p w = (r, w') → only_made_dirs w w'.
Proof.
  unfold mkdir. destruct (os_mkdir p w) as [[u|e] w1] eqn:Hos.
  - intros [= _ <-]. by eapply os_mkdir_only_made_dirs.
  - apply os_mkdir_only_made_dirs in Hos.
    destruct e; try destruct (exist_ok && is_dir p w1); by intros [= _ <-].
Qed.

Lemma mkdir_parents_from_only_made_dirs abs rparts exist_ok w r w' :
  mkdir_parents_from abs rparts exist_ok w = (r, w') → only_made_dirs w w'.
Proof.
  revert exist_ok w r w'.
  induction rparts as [|c rparent IH]; intros exist_ok w r w'; simpl.
  - destruct (os_mkdir _ w) as [[u|e] w1] eqn:Hos;
      apply os_mkdir_only_made_dirs in Hos.
    + by intros [= _ <-].
    + destruct e; try destruct (exist_ok && is_dir _ w1); by intros [= _ <-].
  - destruct (os_mkdir _ w) as [[u|e] w1] eqn:Hos;
      apply os_mkdir_only_made_dirs in Hos.
    + by intros [= _ <-].
    + destruct e; try (destruct (exist_ok && is_dir _ w1); by intros [= _ <-]).
      destruct (mkdir_parents_from abs rparent true w1) as [[u1|e1] w2] eqn:Hrec;
        apply IH in Hrec.
      * intros Hmk%mkdir_only_made_dirs.
        eauto using only_made_dirs_trans.
      * intros [= _ <-]. eauto using only_made_dirs_trans.
Qed.

Lemma write_text_ok_inv p s w u w' :
  write_text p s w = (Ok u, w') →
  ∃ loc, locate w p = At loc ∧ node_at (files w) loc ≠ Some Dir ∧
         w' = store loc (File s) (WriteText loc s) w.
Proof.
  unfold write_text. destruct (locate w p) as [loc|e]; [|done].
  destruct (node_at (files w) loc) as [[|old]|] eqn:Hn; [done|..];
    intros [= _ <-]; exists loc; by rewrite Hn.
Qed.

Lemma write_text_raise_inv p s w e w' :
  write_text p s w = (Raise e, w') → w' = w.
Proof.
  unfold write_text. destruct (locate w p) as [loc|]; [|by intros [= _ <-]].
  destruct (node_at (files w) loc) as [[|old]|]; [by intros [= _ <-]|done..].
Qed.

Lemma emit_ok_inv p content w v w' :
  emit p content w = (Ok v, w') →
  v = PyNone ∧
  ∃ s loc, content = Ok s ∧ locate w p = At loc ∧
           node_at (files w) loc ≠ Some Dir ∧
           w' = store loc (File s) (WriteText loc s) w.
Proof.
  unfold emit. rewrite bind_run. unfold lift.
  destruct content as [s|e]; [|done]. rewrite bind_run.
  destruct (write_text p s w) as [[u|e] w1] eqn:Hw; [|done].
  intros [= <- <-]. split; [done|].
  apply write_text_ok_inv in Hw as (loc & Hloc & Hn & ->). by exists s, loc.
Qed.


(** A successful run of [emit_all] returns [None], keeps the directories,
    and has stored every text at the place its path names, in order. *)
Lemma emit_all_ok l w v w' :
  emit_all l w = (Ok v, w') →
  v = PyNone ∧ dirs_le w w' ∧
  ∃ items,
    Forall2 (λ pc it, pc.2 = Ok it.2 ∧ locate w' pc.1 = At it.1) l items ∧
    trace w' = trace w ++ ((λ it, WriteText it.1 it.2) <$> items) ∧
    files w' = stored items (files w).
Proof.
  revert w. induction l as [|[p content] l IH]; intros w; simpl.
  - intros [= <- <-]. split; [done|]. split; [apply dirs_le_refl|].
    exists []. by rewrite app_nil_r.
  - intros (v1 & w1 & Hemit & Hrest)%bind_ok_inv.
    apply emit_ok_inv in Hemit as (_ & s & loc & -> & Hloc & Hn & ->).
    apply IH in Hrest as (-> & Hle & items & Hall & Htrace & Hfiles).
    pose proof (store_dirs_le loc (File s) (WriteText loc s) w (or_intror Hn)) as Hle1.
    split; [done|]. split; [by eapply dirs_le_trans|].
    exists ((loc, s) :: items). split; [|split].
    + constructor; [|done]. split; [done|]. simpl. eauto using locate_mono.
    + rewrite Htrace. simpl. by rewrite <- app_assoc.
    + by rewrite Hfiles.
Qed.

(** ** The creators and the generator *)

Section generator.
Context `{PyStr}.

(** Every creator makes the package directory and then writes its
    template set. *)
Lemma creator_create_template_set c base_dir (project_info : gmap string string) :
  ScaffoldGenerator.creator_create c base_dir project_info =
  (name ← lift (getitem project_info "name");
   mkdir false (truediv base_dir (package_identifier name));;
   emit_all (template_set c base_dir (truediv base_dir (package_identifier name))
               project_info)).
Proof. by destruct c. Qed.

Lemma creator_create_exists c base_dir (project_info : gmap string string) name w :
  project_info !! "name" = Some name →
  path_exists (truediv base_dir (package_identifier name)) w = true →
  ScaffoldGenerator.creator_create c base_dir project_info w =
  (Raise (FileExistsError (truediv base_dir (package_identifier name))), w).
Proof.
  intros Hname Hex. rewrite creator_create_template_set, bind_run.
  unfold lift. rewrite (getitem_Some _ _ _ Hname), bind_run, mkdir_false.
  by rewrite (os_mkdir_exists _ _ Hex).
Qed.

Lemma creator_create_ok_inv c base_dir (project_info : gmap string string) w v w' :
  ScaffoldGenerator.creator_create c base_dir project_info w = (Ok v, w') →
  ∃ name loc,
    project_info !! "name" = Some name ∧
    locate w (truediv base_dir (package_identifier name)) = At loc ∧
    node_at (files w) loc = None ∧
    emit_all (template_set c base_dir (truediv base_dir (package_identifier name))
                project_info) (store loc Dir (Mkdir loc) w) = (Ok v, w').
Proof.
  rewrite creator_create_template_set, bind_run. unfold lift, getitem.
  destruct (project_info !! "name") as [name|]; [|done].
  rewrite bind_run, mkdir_false.
  destruct (os_mkdir _ w) as [[u|e] w1] eqn:Hos; [|done].
  apply os_mkdir_ok_inv in Hos as (loc & Hloc & Hn & ->).
  intros Hrest. by exists name, loc.
Qed.

(** The steps of [_create_project_structure]. *)
Lemma create_project_structure_run output (project_info : gmap string string) name w :
  project_info !! "name" = Some name →
  ScaffoldGenerator._create_project_structure output project_info w =
  match mkdir_parents true (truediv (Path_of output) name) w with
  | (Raise e, w1) => (Raise e, w1)
  | (Ok _, w1) =>
      match project_info !! "type" with
      | None => (Raise (KeyError "type"), w1)
      | Some type =>
          match ScaffoldGenerator.creators !! type with
          | None => (Raise (KeyError type), w1)
          | Some c =>
              match ScaffoldGenerator.creator_create c
                      (truediv (Path_of output) name) project_info w1 with
              | (Raise e, w') => (Raise e, w')
              | (Ok _, w') => (Ok PyNone, w')
              end
          end
      end
  end.
Proof.
  intros Hname. unfold ScaffoldGenerator._create_project_structure.
  rewrite bind_run. unfold lift at 1. rewrite (getitem_Some _ _ _ Hname).
  rewrite bind_run. destruct (mkdir_parents true _ w) as [[u|e] w1]; [|done].
  rewrite bind_run. unfold lift at 1, getitem.
  destruct (project_info !! "type") as [type|]; [|done].
  rewrite bind_run. unfold lift at 1, ScaffoldGenerator.creators_getitem.
  destruct (ScaffoldGenerator.creators !! type) as [c|]; [|done].
  rewrite bind_run.
  by destruct (ScaffoldGenerator.creator_create c _ project_info w1) as [[v|e] w'].
Qed.

Lemma create_project_structure_ok_inv output (project_info : gmap string string) w v w' :
  ScaffoldGenerator._create_project_structure output project_info w = (Ok v, w') →
  v = PyNone ∧
  ∃ name type c w1 v1,
    project_info !! "name" = Some name ∧
    project_info !! "type" = Some type ∧
    ScaffoldGenerator.creators !! type = Some c ∧
    mkdir_parents true (truediv (Path_of output) name) w = (Ok (), w1) ∧
    ScaffoldGenerator.creator_create c (truediv (Path_of output) name)
      project_info w1 = (Ok v1, w').
Proof.
  destruct (project_info !! "name") as [name|] eqn:Hname.
  - rewrite (create_project_structure_run _ _ _ _ Hname).
    destruct (mkdir_parents true _ w) as [[[]|e] w1] eqn:Hmk; [|done].
    destruct (project_info !! "type") as [type|]; [|done].
    destruct (ScaffoldGenerator.creators !! type) as [c|] eqn:Hc; [|done].
    destruct (ScaffoldGenerator.creator_create c _ project_info w1)
      as [[v1|e] w2] eqn:Hcr; [|done].
    intros [= <- <-]. split; [done|]. by exists name, type, c, w1, v1.
  - unfold ScaffoldGenerator._create_project_structure.
    rewrite bind_run. unfold lift, getitem. by rewrite Hname.
Qed.

End generator.

(** C10.  When the package directory [base_dir / package identifier]
    already exists, each of the three creators raises [FileExistsError]
    for it from its [mkdir] and leaves the world as it was: no template
    file has been written. *)
Theorem existing_package_directory `{PyStr} c base_dir
    (project_info : gmap string string) name w :
  project_info !! "name" = Some name →
  path_exists (truediv base_dir (package_identifier name)) w = true →
  ScaffoldGenerator.creator_create c base_dir project_info w =
  (Raise (FileExistsError (truediv base_dir (package_identifier name))), w).
Proof. apply creator_create_exists. Qed.

Lemma existing_package_directory_witness :
  path_exists (truediv (Path_of "ErisPulse-Demo") (package_identifier "ErisPulse-Demo"))
    packaged_world = true ∧
  ScaffoldGenerator.creator_create cls_AdapterCreator (Path_of "ErisPulse-Demo")
    (project "adapter" "ErisPulse-Demo" "demo") packaged_world =
  (Raise (FileExistsError (mkPath false ["ErisPulse-Demo"; "ErisPulse_Demo"])),
   packaged_world).
Proof.
  split; [reflexivity|].
  exact (existing_package_directory cls_AdapterCreator (Path_of "ErisPulse-Demo")
           (project "adapter" "ErisPulse-Demo" "demo") "ErisPulse-Demo"
           packaged_world eq_refl eq_refl).
Defined.

Lemma collect_declined `{PyStr} a :
  ans_confirm a = false → ScaffoldGenerator._collect_project_info a = ∅.
Proof. unfold ScaffoldGenerator._collect_project_info. by intros ->. Qed.

Lemma collect_confirmed `{PyStr} a :
  ans_confirm a = true → ScaffoldGenerator._collect_project_info a ≠ ∅.
Proof.
  unfold ScaffoldGenerator._collect_project_info. intros ->.
  apply insert_non_empty.
Qed.

(** C7.  When the prompt stage yields the empty dictionary, which is what
    a declined confirmation gives, [handle_scaffold] returns normally and
    the world is the one it started in: nothing was written and no
    exception was raised. *)
Theorem cancelled_is_noop `{PyStr} output a w :
  ScaffoldGenerator._collect_project_info a = ∅ →
  ScaffoldGenerator.handle_scaffold output a w = (Ok PyNone, w).
Proof.
  intros Hempty. unfold ScaffoldGenerator.handle_scaffold.
  rewrite Hempty. by rewrite decide_True.
Qed.

Lemma cancelled_is_noop_witness :
  ScaffoldGenerator._collect_project_info declined = ∅ ∧
  ScaffoldGenerator.handle_scaffold "." declined used_world = (Ok PyNone, used_world).
Proof.
  split; [reflexivity|].
  apply (cancelled_is_noop "." declined used_world). reflexivity.
Defined.

Lemma creators_lookup_None ty :
  ty ≠ "module" → ty ≠ "cli" → ty ≠ "adapter" →
  ScaffoldGenerator.creators !! ty = None.
Proof.
  intros. unfold ScaffoldGenerator.creators.
  by rewrite !lookup_insert_ne, lookup_empty.
Qed.

(** C5, as the code has it.  For a project type outside
    [module], [cli], [adapter] the build fails, but only after the base
    directory step: the world is the one [mkdir(parents=True,
    exist_ok=True)] of the base directory leaves, where directories may
    have been made and nothing else; when that step succeeds the exception
    is the [KeyError] of the lookup in [creators], and no creator runs. *)
Theorem unknown_type_after_base_directory `{PyStr} output
    (project_info : gmap string string) name type w :
  project_info !! "name" = Some name →
  project_info !! "type" = Some type →
  type ≠ "module" → type ≠ "cli" → type ≠ "adapter" →
  ∃ r w',
    mkdir_parents true (truediv (Path_of output) name) w = (r, w') ∧
    ScaffoldGenerator._create_project_structure output project_info w =
      (match r with Ok _ => Raise (KeyError type) | Raise e => Raise e end, w') ∧
    only_made_dirs w w'.
Proof.
  intros Hname Htype H1 H2 H3.
  rewrite (create_project_structure_run _ _ _ _ Hname), Htype.
  rewrite (creators_lookup_None _ H1 H2 H3).
  destruct (mkdir_parents true _ w) as [r w'] eqn:Hmk.
  exists r, w'. split; [done|]. split; [by destruct r|].
  by eapply mkdir_parents_from_only_made_dirs.
Qed.

Lemma unknown_type_after_base_directory_witness :
  ∃ r w',
    mkdir_parents true (truediv (Path_of ".") "ErisPulse-Demo") empty_world = (r, w') ∧
    ScaffoldGenerator._create_project_structure "."
      (project "plugin" "ErisPulse-Demo" "demo") empty_world =
      (match r with Ok _ => Raise (KeyError "plugin") | Raise e => Raise e end, w') ∧
    only_made_dirs empty_world w'.
Proof.
  apply (unknown_type_after_base_directory "."
           (project "plugin" "ErisPulse-Demo" "demo") "ErisPulse-Demo" "plugin"
           empty_world); [reflexivity|reflexivity|done|done|done].
Defined.

(** C5 as stated fails: with the type [plugin] the build raises, and the
    base directory has been made before it does. *)
Lemma unknown_type_makes_base_directory :
  ScaffoldGenerator._create_project_structure "."
    (project "plugin" "ErisPulse-Demo" "demo") empty_world =
  (Raise (KeyError "plugin"),
   {| cwd := [];
      files := {[ ["ErisPulse-Demo"] := Dir ]};
      trace := [Mkdir ["ErisPulse-Demo"]] |}).
Proof. by vm_compute. Qed.

(** After a successful creator the package directory exists, and every
    directory of the start is still there. *)
Lemma creator_create_ok_dirs `{PyStr} c base_dir (project_info : gmap string string)
    w v w' :
  ScaffoldGenerator.creator_create c base_dir project_info w = (Ok v, w') →
  ∃ name,
    project_info !! "name" = Some name ∧ dirs_le w w' ∧
    is_dir (truediv base_dir (package_identifier name)) w' = true.
Proof.
  intros (name & loc & Hname & Hloc & Hn & Hrest)%creator_create_ok_inv.
  apply emit_all_ok in Hrest as (_ & Hle2 & _).
  pose proof (store_dirs_le loc Dir (Mkdir loc) w (or_introl eq_refl)) as Hle1.
  exists name. split; [done|]. split; [by eapply dirs_le_trans|].
  apply (is_dir_mono _ _ _ Hle2), is_dir_spec. exists loc.
  split; [by eapply locate_mono|].
  apply node_at_store. by eapply node_at_None_ne.
Qed.

(** C3, as the code has it.  An existing base directory, empty or not, is
    accepted: its [mkdir(parents=True, exist_ok=True)] does nothing.  What
    fails the build is an existing package directory: then
    [FileExistsError] is raised for it and the world is left as it was.
    This is the case whenever the build is run again after it succeeded. *)
Theorem existing_base_directory `{PyStr} output (project_info : gmap string string)
    name w :
  project_info !! "name" = Some name →
  let base_dir := truediv (Path_of output) name in
  let module_dir := truediv base_dir (package_identifier name) in
  (is_dir base_dir w = true → mkdir_parents true base_dir w = (Ok (), w)) ∧
  (∀ type c,
     project_info !! "type" = Some type →
     ScaffoldGenerator.creators !! type = Some c →
     is_dir base_dir w = true →
     path_exists module_dir w = true →
     ScaffoldGenerator._create_project_structure output project_info w =
     (Raise (FileExistsError module_dir), w)) ∧
  (∀ v w',
     ScaffoldGenerator._create_project_structure output project_info w = (Ok v, w') →
     ScaffoldGenerator._create_project_structure output project_info w' =
     (Raise (FileExistsError module_dir), w')).
Proof.
  intros Hname base_dir module_dir.
  assert (∀ type c w0,
    project_info !! "type" = Some type →
    ScaffoldGenerator.creators !! type = Some c →
    is_dir base_dir w0 = true →
    path_exists module_dir w0 = true →
    ScaffoldGenerator._create_project_structure output project_info w0 =
    (Raise (FileExistsError module_dir), w0)) as Hfail.
  { intros type c w0 Htype Hc Hbase Hmod.
    rewrite (create_project_structure_run _ _ _ _ Hname).
    fold base_dir. rewrite (mkdir_parents_exist_ok _ _ Hbase), Htype, Hc.
    unfold module_dir.
    by rewrite (creator_create_exists c base_dir _ _ _ Hname Hmod). }
  split; [apply mkdir_parents_exist_ok|]. split; [by eauto|].
  intros v w' (_ & name' & type & c & w1 & v1 & Hname' & Htype & Hc & Hmk & Hcr)
    %create_project_structure_ok_inv.
  assert (name' = name) as -> by congruence. fold base_dir in Hmk, Hcr.
  apply mkdir_parents_ok in Hmk as [_ Hbase].
  apply creator_create_ok_dirs in Hcr as (name' & Hname'' & Hle & Hmod).
  assert (name' = name) as -> by congruence.
  apply (Hfail type c); [done..| |].
  - by eapply is_dir_mono.
  - by apply is_dir_exists.
Qed.

Lemma existing_base_directory_witness :
  project "cli" "ErisPulse-Demo" "demo" !! "name" = Some "ErisPulse-Demo" ∧
  ScaffoldGenerator._create_project_structure "."
    (project "cli" "ErisPulse-Demo" "demo") packaged_world =
  (Raise (FileExistsError (mkPath false ["ErisPulse-Demo"; "ErisPulse_Demo"])),
   packaged_world).
Proof.
  split; [reflexivity|].
  exact (proj1 (proj2 (existing_base_directory "."
           (project "cli" "ErisPulse-Demo" "demo") "ErisPulse-Demo"
           packaged_world eq_refl))
           "cli" cls_CLICreator eq_refl eq_refl eq_refl eq_refl).
Defined.

(** C3 as stated fails: the base directory exists and holds a file, and
    the build succeeds and writes its five files into it. *)
Lemma nonempty_base_directory_is_written :
  let run := ScaffoldGenerator._create_project_structure "."
               (project "module" "ErisPulse-Demo" "demo") used_world in
  is_dir (Path_of "ErisPulse-Demo") used_world = true ∧
  files used_world !! ["ErisPulse-Demo"; "README.md"] = Some (File "my notes") ∧
  run.1 = Ok PyNone ∧
  written (trace run.2) =
    [["ErisPulse-Demo"; "pyproject.toml"];
     ["ErisPulse-Demo"; "README.md"];
     ["ErisPulse-Demo"; "LICENSE"];
     ["ErisPulse-Demo"; "ErisPulse_Demo"; "Core.py"];
     ["ErisPulse-Demo"; "ErisPulse_Demo"; "__init__.py"]].
Proof. by vm_compute. Qed.

(** ** What a successful build has written *)

Lemma stored_cons (items : list (list string * string))
    (fs : gmap (list string) node) loc s :
  stored ((loc, s) :: items) fs = stored items (<[loc := File s]> fs).
Proof. reflexivity. Qed.

Lemma stored_lookup_notin (items : list (list string * string))
    (fs : gmap (list string) node) loc :
  loc ∉ items.*1 → stored items fs !! loc = fs !! loc.
Proof.
  revert fs. induction items as [|[l t] items IH]; intros fs Hnotin; [done|].
  apply not_elem_of_cons in Hnotin as [Hne Hnotin].
  rewrite stored_cons, IH by done. by rewrite lookup_insert_ne.
Qed.

Lemma stored_lookup (items : list (list string * string))
    (fs : gmap (list string) node) loc s :
  NoDup items.*1 → (loc, s) ∈ items → stored items fs !! loc = Some (File s).
Proof.
  revert fs. induction items as [|[l t] items IH]; intros fs Hnd Hin.
  - by apply elem_of_nil in Hin.
  - apply NoDup_cons in Hnd as [Hnotin Hnd]. rewrite stored_cons.
    apply elem_of_cons in Hin as [[= <- <-]|Hin]; [|by apply IH].
    rewrite (stored_lookup_notin items _ loc Hnotin). by rewrite lookup_insert_eq.
Qed.

(** The place of a file directly under a directory ends with its name. *)
Lemma locate_truediv_last w q fname loc :
  Path_of fname = {| absolute := false; parts := [fname] |} →
  fname ≠ ".." →
  locate w (truediv q fname) = At loc → last loc = Some fname.
Proof.
  intros Hp Hne. unfold truediv, locate. rewrite Hp. simpl.
  rewrite removelast_last, last_snoc.
  destruct (walk (files w) _ (parts q)) as [d|]; [|done].
  unfold enter. rewrite decide_False by done. intros [= <-]. apply last_snoc.
Qed.

(** The files of a template set lie at different places. *)
Lemma template_set_places `{PyStr} c base_dir module_dir
    (project_info : gmap string string) w
    (items : list (list string * string)) :
  Forall2 (λ pc it, pc.2 = Ok it.2 ∧ locate w pc.1 = At it.1)
    (template_set c base_dir module_dir project_info) items →
  NoDup items.*1.
Proof.
  intros Hall. apply (NoDup_fmap_1 last).
  destruct c; simpl in Hall;
    repeat match goal with
    | H : Forall2 _ (_ :: _) _ |- _ =>
        let Hl := fresh "Hl" in
        apply Forall2_cons_inv_l in H as (? & ? & [_ Hl] & H & ->);
        apply locate_truediv_last in Hl; [|reflexivity|done]
    | H : Forall2 _ [] _ |- _ => apply Forall2_nil_inv_l in H as ->
    end;
    simpl; repeat match goal with Hl : last _ = _ |- _ => rewrite Hl; clear Hl end;
    by apply (bool_decide_unpack _).
Qed.

Section build_success.
Context `{PyStr}.

(** A successful build returns [None]; it has made directories, the
    package directory last, and then written the template set of the
    creator in order, each text at the place its path names. *)
Lemma create_project_structure_ok output (project_info : gmap string string) w v w' :
  ScaffoldGenerator._create_project_structure output project_info w = (Ok v, w') →
  v = PyNone ∧
  ∃ name type c dirs items,
    project_info !! "name" = Some name ∧
    project_info !! "type" = Some type ∧
    ScaffoldGenerator.creators !! type = Some c ∧
    Forall2 (λ pc it, pc.2 = Ok it.2 ∧ locate w' pc.1 = At it.1)
      (template_set c (truediv (Path_of output) name)
         (truediv (truediv (Path_of output) name) (package_identifier name))
         project_info) items ∧
    trace w' = trace w ++ (Mkdir <$> dirs) ++ ((λ it, WriteText it.1 it.2) <$> items) ∧
    ∀ loc s, (loc, s) ∈ items → files w' !! loc = Some (File s).
Proof.
  intros (-> & name & type & c & w1 & v1 & Hname & Htype & Hc & Hmk & Hcr)
    %create_project_structure_ok_inv.
  split; [done|]. exists name, type, c.
  apply mkdir_parents_from_only_made_dirs in Hmk as (_ & [dirs Hdirs] & _).
  apply creator_create_ok_inv in Hcr as (name' & loc & Hname' & Hloc & Hn & Hrest).
  assert (name' = name) as -> by congruence.
  apply emit_all_ok in Hrest as (_ & _ & items & Hall & Htrace & Hfiles).
  exists (dirs ++ [loc]), items. repeat split; try done.
  - rewrite Htrace. simpl. rewrite Hdirs, fmap_app. simpl.
    by rewrite <- !app_assoc.
  - intros loc' s Hin. rewrite Hfiles.
    apply stored_lookup; [|done]. by eapply template_set_places.
Qed.

End build_success.

(** C8, as the code has it.  A successful build returns [None], not a
    list of paths.  The files it wrote are those of the template set of the
    creator, in the order of [create] (manifest, README, LICENSE, the
    source files, [__init__] last); they are to be read from the file
    system. *)
Theorem build_returns_none `{PyStr} output (project_info : gmap string string)
    w v w' :
  ScaffoldGenerator._create_project_structure output project_info w = (Ok v, w') →
  v = PyNone ∧ wrote_template_set output project_info w w'.
Proof.
  intros (-> & name & type & c & dirs & items & Hname & Htype & Hc & Hall & Htr & _)
    %create_project_structure_ok.
  split; [done|]. by exists name, type, c, dirs, items.
Qed.

Lemma build_returns_none_witness :
  let run := ScaffoldGenerator._create_project_structure "."
               (project "adapter" "ErisPulse-Demo" "demo") empty_world in
  run = (Ok PyNone, run.2) ∧
  wrote_template_set "." (project "adapter" "ErisPulse-Demo" "demo")
    empty_world run.2.
Proof.
  intros run.
  assert (run = (Ok PyNone, run.2)) as Hrun by (vm_compute; reflexivity).
  split; [exact Hrun|].
  exact (proj2 (build_returns_none "." (project "adapter" "ErisPulse-Demo" "demo")
                  empty_world PyNone run.2 Hrun)).
Defined.

(** C8 as stated fails: the build of a module project succeeds, has
    written five files, and its value is [None], not a list of paths. *)
Lemma build_returns_no_paths :
  let run := ScaffoldGenerator._create_project_structure "."
               (project "module" "ErisPulse-Demo" "demo") empty_world in
  run.1 = Ok PyNone ∧
  length (written (trace run.2)) = 5 ∧
  ∀ paths, run.1 ≠ Ok (PyPaths paths).
Proof.
  assert ((ScaffoldGenerator._create_project_structure "."
             (project "module" "ErisPulse-Demo" "demo") empty_world).1 = Ok PyNone)
    as Hrun by (vm_compute; reflexivity).
  simpl. split; [exact Hrun|]. split; [by vm_compute|].
  intros paths. by rewrite Hrun.
Qed.

Lemma emit_overwrites p s w loc old :
  locate w p = At loc →
  node_at (files w) loc = Some (File old) →
  emit p (Ok s) w = (Ok PyNone, store loc (File s) (WriteText loc s) w).
Proof.
  intros Hloc Hn. unfold emit. rewrite bind_run. unfold lift.
  rewrite bind_run. unfold write_text. by rewrite Hloc, Hn.
Qed.


(** ** The derived identifiers and the Weather scenario *)

(** C1.  The package identifier is the name with every hyphen replaced by
    an underscore, character by character; the short name has no hyphen
    and is the whole name when the name has none, and otherwise what
    follows the last hyphen.  Every creator uses them: the directory it
    makes under the base directory is named by the package identifier, and
    the entry point of its manifest is keyed by the short name (lower-cased
    for a cli) and points into the package identifier. *)
Theorem derived_identifiers `{PyStr} name :
  (String.length (package_identifier name) = String.length name ∧
   ∀ i, String.get i (package_identifier name) =
        (λ c, if Ascii.eqb c "-" then "_"%char else c) <$> String.get i name) ∧
  (Str.contains "-" (short_name name) = false ∧
   ((Str.contains "-" name = false ∧ short_name name = name) ∨
    ∃ pre, name = pre +:+ String "-" (short_name name))) ∧
  ∀ c base_dir (project_info : gmap string string),
    project_info !! "name" = Some name →
    (∀ w v w',
       ScaffoldGenerator.creator_create c base_dir project_info w = (Ok v, w') →
       is_dir (truediv base_dir (package_identifier name)) w' = true) ∧
    (has_fields project_info = true →
     ∃ head,
       pyproject_content c project_info =
       Ok (head +:+ entry_point_table (entry_point_group c)
             (match c with
              | cls_CLICreator => str_lower (short_name name)
              | _ => short_name name
              end)
             (package_identifier name) (entry_point_symbol c name))).
Proof.
  split; [|split].
  - split; [apply replace_length|]. intros i. apply replace_get.
  - apply split_last_spec.
  - intros c base_dir project_info Hname. split.
    + intros w v w' (name' & Hname' & _ & Hd)%creator_create_ok_dirs.
      by assert (name' = name) as -> by congruence.
    + intros Hf.
      destruct (pyproject_entry_point c project_info name Hf Hname) as [head ->].
      exists head. by destruct c.
Qed.

(** C6, as the code has it.  For the module project [ErisPulse-Weather],
    whatever its other fields, the build in an empty directory makes
    [ErisPulse-Weather] and in it the package directory [ErisPulse_Weather]
    (the case of the name is kept), writes [pyproject.toml], [README.md] and
    [LICENSE] at the root and [Core.py] and [__init__.py] in the package,
    and nothing else; the entry point of the manifest has the key
    [Weather]. *)
Theorem weather_scenario `{PyStr} description author_name author_email homepage :
  let run := ScaffoldGenerator._create_project_structure "."
               (weather description author_name author_email homepage)
               empty_world in
  let root := "ErisPulse-Weather" in
  let package := "ErisPulse_Weather" in
  run.1 = Ok PyNone ∧
  dom (files run.2) =
    {[ [root]; [root; package]; [root; "pyproject.toml"]; [root; "README.md"];
       [root; "LICENSE"]; [root; package; "Core.py"];
       [root; package; "__init__.py"] ]} ∧
  files run.2 !! [root] = Some Dir ∧
  files run.2 !! [root; package] = Some Dir ∧
  (∃ head,
     files run.2 !! [root; "pyproject.toml"] =
     Some (File (head +:+
             entry_point_table "erispulse.module" "Weather" package "Main"))) ∧
  files run.2 !! [root; "README.md"] =
    Some (File (Str.cat ["# ErisPulse-Weather"; Str.nl; Str.nl; description])) ∧
  files run.2 !! [root; "LICENSE"] = Some (File license_content) ∧
  (∃ core, files run.2 !! [root; package; "Core.py"] = Some (File core)) ∧
  files run.2 !! [root; package; "__init__.py"] =
    Some (File "from .Core import Main").
Proof.
  intros run root package.
  repeat split; try (vm_compute; reflexivity).
  - destruct (pyproject_entry_point cls_ModuleCreator
                (weather description author_name author_email homepage)
                "ErisPulse-Weather" eq_refl eq_refl) as [head Hhead].
    exists head.
    assert (files run.2 !! [root; "pyproject.toml"] =
            match pyproject_content cls_ModuleCreator
                    (weather description author_name author_email homepage) with
            | Ok s => Some (File s)
            | Raise _ => None
            end) as -> by (vm_compute; reflexivity).
    by rewrite Hhead.
  - eexists. vm_compute. reflexivity.
Qed.

(** C6 as stated fails: the build succeeds and there is no directory
    [erispulse_weather], nor any of its files. *)
Lemma weather_package_keeps_case :
  let run := ScaffoldGenerator._create_project_structure "."
               (weather "forecasts" "yourname" "your@mail.com"
                  "https://github.com/yourname/ErisPulse-Weather")
               empty_world in
  run.1 = Ok PyNone ∧
  files run.2 !! ["ErisPulse-Weather"; "erispulse_weather"] = None ∧
  files run.2 !! ["ErisPulse-Weather"; "erispulse_weather"; "__init__.py"] = None ∧
  files run.2 !! ["ErisPulse-Weather"; "erispulse_weather"; "Core.py"] = None ∧
  files run.2 !! ["ErisPulse-Weather"; "ErisPulse_Weather"] = Some Dir.
Proof. by vm_compute. Qed.

(** * Further properties *)

(** ** More on the derived identifiers *)

Section more_str_facts.
Variables old new : ascii.

Lemma replace_no_old s :
  Str.contains old s = false → Str.replace old new s = s.
Proof.
  induction s as [|c s IH]; simpl; [done|].
  destruct (Ascii.eqb c old); simpl; [done|]. intros Hs. by rewrite IH.
Qed.

Lemma replace_fixed s :
  new ≠ old → Str.replace old new s = s → Str.contains old s = false.
Proof.
  intros Hne. induction s as [|c s IH]; simpl; [done|].
  destruct (Ascii.eqb c old) eqn:Hc; simpl.
  - apply Ascii.eqb_eq in Hc as ->. by intros [= ? _].
  - intros [= Hs]. by apply IH.
Qed.

(** A text without the new character is only the image of itself. *)
Lemma replace_inv s t :
  Str.contains new t = false → Str.replace old new s = t → s = t.
Proof.
  revert t. induction s as [|c s IH]; intros [|d t]; simpl; try done.
  destruct (Ascii.eqb c old) eqn:Hc.
  - intros Hd [= <- _]. by rewrite Ascii.eqb_refl in Hd.
  - intros Hd [= <- Hs]. f_equal. apply IH; [|done].
    by apply orb_false_iff in Hd as [_ Hd].
Qed.

(** Other characters are found in the image as in the text. *)
Lemma replace_contains_other c s :
  c ≠ old → c ≠ new → Str.contains c (Str.replace old new s) = Str.contains c s.
Proof.
  intros Ho Hn. induction s as [|d s IH]; simpl; [done|]. rewrite IH. f_equal.
  destruct (Ascii.eqb d old) eqn:Hd; [|done].
  apply Ascii.eqb_eq in Hd as ->.
  transitivity false; [by apply Ascii.eqb_neq|symmetry; by apply Ascii.eqb_neq].
Qed.

(** Splitting at another character commutes with the replacement. *)
Lemma split_replace sep s :
  sep ≠ old → sep ≠ new →
  Str.split sep (Str.replace old new s) = Str.replace old new <$> Str.split sep s.
Proof.
  intros Ho Hn. induction s as [|c s IH]; simpl; [done|]. rewrite IH.
  assert (Ascii.eqb (if Ascii.eqb c old then new else c) sep = Ascii.eqb c sep) as ->.
  { destruct (Ascii.eqb c old) eqn:Hc; [|done].
    apply Ascii.eqb_eq in Hc as ->.
    transitivity false; [by apply Ascii.eqb_neq|symmetry; by apply Ascii.eqb_neq]. }
  destruct (Ascii.eqb c sep); [done|].
  destruct (Str.split sep s) as [|w ws] eqn:Hsp; [by apply split_not_nil in Hsp|].
  done.
Qed.

End more_str_facts.

(** The short name only depends on what follows a hyphen. *)
Lemma split_last_suffix sep pre s :
  Str.item_last (Str.split sep (pre +:+ String sep s)) =
  Str.item_last (Str.split sep s).
Proof.
  unfold Str.item_last.
  assert (∃ l : list string, l ≠ [] ∧
    Str.split sep (pre +:+ String sep s) = l ++ Str.split sep s) as (l & _ & ->).
  { induction pre as [|c pre (l & Hl & IH)].
    - exists [""]. simpl. by rewrite Ascii.eqb_refl.
    - change (String c pre +:+ String sep s) with (String c (pre +:+ String sep s)).
      simpl. rewrite IH. destruct (Ascii.eqb c sep); [by exists ("" :: l)|].
      destruct l as [|w l]; [done|]. by exists (String c w :: l). }
  destruct (Str.split sep s) as [|w ws] eqn:Hsp; [by apply split_not_nil in Hsp|].
  clear. induction l as [|x l IH]; [done|]. rewrite <- IH.
  change ((x :: l) ++ w :: ws) with (x :: (l ++ w :: ws)).
  destruct (l ++ w :: ws) eqn:Hl; [by destruct l|done].
Qed.

(** X1.  The package identifier has no hyphen left, replacing again
    changes nothing, and it is the name itself exactly when the name has no
    hyphen. *)
Theorem package_identifier_hyphen_free name :
  Str.contains "-" (package_identifier name) = false ∧
  package_identifier (package_identifier name) = package_identifier name ∧
  (package_identifier name = name ↔ Str.contains "-" name = false).
Proof.
  assert (Str.contains "-" (package_identifier name) = false) as Hfree
    by (by apply replace_contains).
  split; [done|]. split; [by apply replace_no_old|]. split.
  - by apply replace_fixed.
  - apply replace_no_old.
Qed.

(** X2.  The short name, and with it the entry-point key of every
    creator, only depends on what follows a hyphen: two names with the same
    last segment get the same key.  Taking the short name twice gives
    nothing new. *)
Theorem short_name_of_suffix `{PyStr} pre s :
  short_name (pre +:+ String "-" s) = short_name s ∧
  short_name (short_name s) = short_name s ∧
  ∀ c, entry_point_key c (pre +:+ String "-" s) = entry_point_key c s.
Proof.
  assert (short_name (pre +:+ String "-" s) = short_name s) as Hsuf
    by apply split_last_suffix.
  split; [done|]. split.
  - destruct (split_last_spec Str.hyphen s) as [Hfree _].
    fold (short_name s) in Hfree. unfold short_name at 1.
    by rewrite (split_no_sep _ _ Hfree).
  - intros c. destruct c; simpl; by rewrite Hsuf.
Qed.

(** ** Names as paths *)

Lemma plain_component_spec s :
  plain_component s = true ↔
  Str.contains Str.slash s = false ∧ s ≠ "" ∧ s ≠ "." ∧ s ≠ "..".
Proof.
  unfold plain_component.
  rewrite !andb_true_iff, negb_true_iff, !bool_decide_eq_true. tauto.
Qed.

(** A plain component is a relative path of that one component. *)
Lemma plain_Path_of s :
  plain_component s = true →
  Path_of s = {| absolute := false; parts := [s] |}.
Proof.
  intros (Hslash & Hne & Hdot & _)%plain_component_spec.
  unfold Path_of. rewrite (split_no_sep _ _ Hslash). f_equal.
  - destruct s as [|c s]; [done|]. simpl in Hslash.
    by apply orb_false_iff in Hslash as [-> _].
  - unfold filter. simpl. by rewrite decide_True.
Qed.

(** The path of the package identifier is the path of the name with the
    hyphens of every component replaced. *)
Lemma Path_of_package_identifier name :
  Path_of (package_identifier name) =
  {| absolute := absolute (Path_of name);
     parts := package_identifier <$> parts (Path_of name) |}.
Proof.
  unfold Path_of, package_identifier. simpl. f_equal.
  - destruct name as [|c name]; [done|]. simpl.
    destruct (Ascii.eqb c Str.hyphen) eqn:Hc; [|done].
    by apply Ascii.eqb_eq in Hc as ->.
  - rewrite split_replace by done.
    induction (Str.split Str.slash name) as [|x l IH]; [done|].
    rewrite fmap_cons, !filter_cons, IH.
    assert (Str.replace Str.hyphen Str.underscore x ≠ "" ∧
            Str.replace Str.hyphen Str.underscore x ≠ "." ↔
            x ≠ "" ∧ x ≠ ".") as Hiff.
    { split; intros [H1 H2]; split; intros Heq.
      - apply H1. by rewrite Heq.
      - apply H2. by rewrite Heq.
      - apply H1. by apply (replace_inv Str.hyphen Str.underscore x "" eq_refl).
      - apply H2. by apply (replace_inv Str.hyphen Str.underscore x "." eq_refl). }
    repeat case_decide; try done; tauto.
Qed.

Lemma plain_package_identifier name :
  plain_component name = true → plain_component (package_identifier name) = true.
Proof.
  rewrite !plain_component_spec. intros (Hslash & Hne & Hdot & Hdots).
  unfold package_identifier. rewrite replace_contains_other by done.
  split; [done|].
  repeat split; intros Heq;
    eapply (replace_inv Str.hyphen Str.underscore) in Heq; done.
Qed.

(** ** The generated texts taken together *)

Section texts.
Context `{PyStr}.

(** X3.  The source file that the package [__init__] imports from defines
    the imported symbol: it has the line [class Main:] for a module, the
    line [def cli_register(...)] for a cli, and [class <short
    name>(BaseAdapter):] for an adapter, so the import of C9 resolves. *)
Theorem source_defines_symbol c (project_info : gmap string string) name :
  has_fields project_info = true →
  project_info !! "name" = Some name →
  (∃ before after,
     source_content c project_info =
     Ok (Str.text (before ++ definition_line c name :: after))) ∧
  definition_line c name =
    match c with
    | cls_ModuleCreator => Str.cat ["class "; entry_point_symbol c name; ":"]
    | cls_CLICreator =>
        Str.cat ["def "; entry_point_symbol c name;
                 "(subparsers: Any, console: Console) -> None:"]
    | cls_AdapterCreator =>
        Str.cat ["class "; entry_point_symbol c name; "(BaseAdapter):"]
    end.
Proof.
  intros Hf Hname. split; [|by destruct c].
  destruct c; unfold source_content, ModuleCreator.core_content,
    CLICreator.cli_content, AdapterCreator.core_content;
    rewrite !(getitem_Some _ _ _ Hname); field_lookups Hf.
  - match goal with
    | |- context [Ok (Str.text ?l)] => by exists (take 4 l), (drop 5 l)
    end.
  - match goal with
    | |- context [Ok (Str.text ?l)] => by exists (take 5 l), (drop 6 l)
    end.
  - match goal with
    | |- context [Ok (Str.text ?l)] => by exists (take 7 l), (drop 8 l)
    end.
Qed.

(** X4.  The command that the generated [cli.py] registers with
    [add_parser] is the key under which the manifest registers the cli:
    both are the lower-cased short name. *)
Theorem cli_command_is_entry_point_key (project_info : gmap string string) name :
  has_fields project_info = true →
  project_info !! "name" = Some name →
  let key := str_lower (short_name name) in
  (∃ before after,
     CLICreator.cli_content project_info =
     Ok (Str.text (before ++
           ["    parser = subparsers.add_parser(";
            Str.cat ["        '"; key; "',  # 命令名称"]] ++ after))) ∧
  ∃ head,
    CLICreator.pyproject_content project_info =
    Ok (head +:+ entry_point_table "erispulse.cli" key
                   (package_identifier name) "cli_register").
Proof.
  intros Hf Hname key. split.
  - unfold CLICreator.cli_content.
    rewrite !(getitem_Some _ _ _ Hname); field_lookups Hf.
    match goal with
    | |- context [Ok (Str.text ?l)] => by exists (take 14 l), (drop 16 l)
    end.
  - exact (pyproject_entry_point cls_CLICreator project_info name Hf Hname).
Qed.

(** X5.  The manifests of the three creators are one text except in two
    places: the list of dependencies, which is empty but for the cli (one
    line, [ErisPulse>=2.1.6]), and the entry-point table at the end. *)
Theorem manifests_differ_in_two_places (project_info : gmap string string) name :
  has_fields project_info = true →
  project_info !! "name" = Some name →
  ∃ top bottom, ∀ c,
    pyproject_content c project_info =
    Ok (top +:+ Str.text (dependency_lines c) +:+ bottom +:+
        entry_point_table (entry_point_group c) (entry_point_key c name)
          (package_identifier name) (entry_point_symbol c name)).
Proof.
  intros Hf Hname.
  assert (∃ top bottom,
    ModuleCreator.pyproject_content project_info =
      Ok (top +:+ Str.text (dependency_lines cls_ModuleCreator) +:+ bottom +:+
          entry_point_table (entry_point_group cls_ModuleCreator)
            (entry_point_key cls_ModuleCreator name)
            (package_identifier name) (entry_point_symbol cls_ModuleCreator name)) ∧
    CLICreator.pyproject_content project_info =
      Ok (top +:+ Str.text (dependency_lines cls_CLICreator) +:+ bottom +:+
          entry_point_table (entry_point_group cls_CLICreator)
            (entry_point_key cls_CLICreator name)
            (package_identifier name) (entry_point_symbol cls_CLICreator name)) ∧
    AdapterCreator.pyproject_content project_info =
      Ok (top +:+ Str.text (dependency_lines cls_AdapterCreator) +:+ bottom +:+
          entry_point_table (entry_point_group cls_AdapterCreator)
            (entry_point_key cls_AdapterCreator name)
            (package_identifier name) (entry_point_symbol cls_AdapterCreator name)))
    as (top & bottom & Hm & Hc & Ha).
  { unfold ModuleCreator.pyproject_content, CLICreator.pyproject_content,
      AdapterCreator.pyproject_content.
    rewrite !(getitem_Some _ _ _ Hname); field_lookups Hf.
    match goal with
    | |- context [Ok (Str.text ?l)] =>
        exists (Str.text (take 10 l)), (Str.text (take 5 (drop 10 l)))
    end.
    unfold entry_point_table. rewrite <- !text_app. by repeat split. }
  exists top, bottom. by intros [].
Qed.

End texts.

Lemma source_defines_symbol_witness :
  has_fields (project "adapter" "Foo-Bar" "demo") = true ∧
  ∃ before after,
    source_content cls_AdapterCreator (project "adapter" "Foo-Bar" "demo") =
    Ok (Str.text (before ++ "class Bar(BaseAdapter):" :: after)).
Proof.
  split; [reflexivity|].
  exact (proj1 (source_defines_symbol cls_AdapterCreator
                  (project "adapter" "Foo-Bar" "demo") "Foo-Bar" eq_refl eq_refl)).
Defined.

Lemma cli_command_is_entry_point_key_witness :
  has_fields (project "cli" "ErisPulse-Demo" "demo") = true ∧
  ∃ before after,
    CLICreator.cli_content (project "cli" "ErisPulse-Demo" "demo") =
    Ok (Str.text (before ++
          ["    parser = subparsers.add_parser(";
           "        'demo',  # 命令名称"] ++ after)).
Proof.
  split; [reflexivity|].
  exact (proj1 (cli_command_is_entry_point_key
                  (project "cli" "ErisPulse-Demo" "demo") "ErisPulse-Demo"
                  eq_refl eq_refl)).
Defined.

Lemma manifests_differ_in_two_places_witness :
  has_fields (project "module" "ErisPulse-Demo" "demo") = true ∧
  ∃ top bottom, ∀ c,
    pyproject_content c (project "module" "ErisPulse-Demo" "demo") =
    Ok (top +:+ Str.text (dependency_lines c) +:+ bottom +:+
        entry_point_table (entry_point_group c) (entry_point_key c "ErisPulse-Demo")
          "ErisPulse_Demo" (entry_point_symbol c "ErisPulse-Demo")).
Proof.
  split; [reflexivity|].
  exact (manifests_differ_in_two_places
           (project "module" "ErisPulse-Demo" "demo") "ErisPulse-Demo"
           eq_refl eq_refl).
Defined.

(** ** Missing keys *)

Lemma os_mkdir_fresh p w loc :
  locate w p = At loc → node_at (files w) loc = None →
  os_mkdir p w = (Ok (), store loc Dir (Mkdir loc) w).
Proof. intros Hloc Hn. unfold os_mkdir. by rewrite Hloc, Hn. Qed.

Section missing_keys.
Context `{PyStr}.

(** X6.  Without the key [name] nothing touches the file system: the
    build, and each creator on its own, raise [KeyError] for [name] and the
    world is as before. *)
Theorem missing_name_touches_nothing output base_dir
    (project_info : gmap string string) w :
  project_info !! "name" = None →
  ScaffoldGenerator._create_project_structure output project_info w =
    (Raise (KeyError "name"), w) ∧
  ∀ c, ScaffoldGenerator.creator_create c base_dir project_info w =
       (Raise (KeyError "name"), w).
Proof.
  intros Hname. split.
  - unfold ScaffoldGenerator._create_project_structure.
    rewrite bind_run. unfold lift. by rewrite (getitem_None _ _ Hname).
  - intros c. rewrite creator_create_template_set, bind_run. unfold lift.
    by rewrite (getitem_None _ _ Hname).
Qed.



End missing_keys.

Lemma missing_name_touches_nothing_witness :
  delete "name" (project "module" "ErisPulse-Demo" "demo") !! "name" = None ∧
  ScaffoldGenerator._create_project_structure "."
    (delete "name" (project "module" "ErisPulse-Demo" "demo")) used_world =
  (Raise (KeyError "name"), used_world).
Proof.
  split; [reflexivity|].
  exact (proj1 (missing_name_touches_nothing "." (Path_of ".")
                  (delete "name" (project "module" "ErisPulse-Demo" "demo"))
                  used_world eq_refl)).
Defined.


(** ** Exceptions of a build started from the prompt *)

Lemma os_mkdir_raise_os p w e w' :
  os_mkdir p w = (Raise e, w') → is_os_error e = true.
Proof.
  unfold os_mkdir. destruct (locate w p) as [loc|[]]; [|by intros [= <- _]..].
  destruct (node_at (files w) loc); [by intros [= <- _]|done].
Qed.

Lemma mkdir_raise_os exist_ok p w e w' :
  mkdir exist_ok p w = (Raise e, w') → is_os_error e = true.
Proof.
  unfold mkdir. destruct (os_mkdir p w) as [[u|e1] w1] eqn:Hos; [done|].
  apply os_mkdir_raise_os in Hos.
  destruct e1; try destruct (exist_ok && is_dir p w1); try done;
    by intros [= <- _].
Qed.

Lemma mkdir_parents_from_raise_os abs rparts exist_ok w e w' :
  mkdir_parents_from abs rparts exist_ok w = (Raise e, w') → is_os_error e = true.
Proof.
  revert exist_ok w e w'.
  induction rparts as [|c rparent IH]; intros exist_ok w e w'; simpl.
  - destruct (os_mkdir _ w) as [[u|e1] w1] eqn:Hos; [done|].
    apply os_mkdir_raise_os in Hos.
    destruct e1; try destruct (exist_ok && is_dir _ w1); try done;
      by intros [= <- _].
  - destruct (os_mkdir _ w) as [[u|e1] w1] eqn:Hos; [done|].
    apply os_mkdir_raise_os in Hos.
    destruct e1; try (destruct (exist_ok && is_dir _ w1); try done;
                      by intros [= <- _]); try done.
    destruct (mkdir_parents_from abs rparent true w1) as [[u1|e2] w2] eqn:Hrec.
    + apply mkdir_raise_os.
    + intros [= <- _]. by eapply IH.
Qed.

Lemma write_text_raise_os p s w e w' :
  write_text p s w = (Raise e, w') → is_os_error e = true.
Proof.
  unfold write_text. destruct (locate w p) as [loc|[]]; [|by intros [= <- _]..].
  destruct (node_at (files w) loc) as [[|old]|]; [by intros [= <- _]|done..].
Qed.

(** When every text is there, writing raises nothing but exceptions of
    the file system. *)
Lemma emit_all_raise_os l w e w' :
  Forall (λ pc : Path * result string, ∃ s, pc.2 = Ok s) l →
  emit_all l w = (Raise e, w') → is_os_error e = true.
Proof.
  intros Hall. revert w. induction Hall as [|[p content] l [s Hs] _ IH];
    intros w; simpl in *; [done|]. subst content.
  rewrite bind_run. unfold emit at 1. rewrite bind_run. unfold lift.
  rewrite bind_run.
  destruct (write_text p s w) as [[u|e1] w1] eqn:Hw.
  - apply IH.
  - intros [= <- _]. by eapply write_text_raise_os.
Qed.

Section prompt_builds.
Context `{PyStr}.

(** With all fields, every text of a template set is there and not
    empty. *)
Lemma template_set_texts c base_dir module_dir (project_info : gmap string string) :
  has_fields project_info = true →
  Forall (λ pc : Path * result string, ∃ s, pc.2 = Ok s ∧ s ≠ "")
    (template_set c base_dir module_dir project_info).
Proof.
  intros Hf.
  destruct c; simpl; repeat apply Forall_cons_2; try apply Forall_nil_2; simpl;
    unfold ModuleCreator.pyproject_content, ModuleCreator.core_content,
      CLICreator.pyproject_content, CLICreator.cli_content,
      AdapterCreator.pyproject_content, AdapterCreator.core_content,
      AdapterCreator.converter_content, AdapterCreator.init_content,
      readme_content;
    field_lookups Hf; by eexists.
Qed.

(** The dictionary of a confirmed prompt has all fields. *)
Lemma collect_has_fields a :
  ans_confirm a = true →
  has_fields (ScaffoldGenerator._collect_project_info a) = true.
Proof.
  unfold ScaffoldGenerator._collect_project_info. intros ->.
  unfold has_fields, fields. simpl.
  repeat (rewrite lookup_insert; case_decide; try done).
Qed.

Lemma create_project_structure_raise_os output (project_info : gmap string string)
    type c w e w' :
  has_fields project_info = true →
  project_info !! "type" = Some type →
  ScaffoldGenerator.creators !! type = Some c →
  ScaffoldGenerator._create_project_structure output project_info w = (Raise e, w') →
  is_os_error e = true.
Proof.
  intros Hf Htype Hc.
  destruct (has_fields_lookup project_info "name" Hf
              ltac:(by vm_compute; set_solver)) as [name Hname].
  rewrite (create_project_structure_run _ _ _ _ Hname), Htype, Hc.
  destruct (mkdir_parents true _ w) as [[[]|e1] w1] eqn:Hmk.
  - rewrite creator_create_template_set, bind_run. unfold lift.
    rewrite (getitem_Some _ _ _ Hname), bind_run.
    destruct (mkdir false _ w1) as [[[]|e2] w2] eqn:Hmd.
    + destruct (emit_all _ w2) as [[v|e3] w3] eqn:Hem; [done|].
      intros [= <- _]. eapply emit_all_raise_os; [|done].
      eapply Forall_impl; [by apply template_set_texts|].
      intros pc (s & Hs & _). by exists s.
    + intros [= <- _]. by eapply mkdir_raise_os.
  - intros [= <- _]. by eapply mkdir_parents_from_raise_os.
Qed.

End prompt_builds.

(** ** Nothing is removed *)


Lemma written_mkdirs locs : written (Mkdir <$> locs) = [].
Proof. induction locs; [done|]. by simpl. Qed.

Lemma kept_refl w : kept w w.
Proof.
  split; [done|]. exists []. split; [by rewrite app_nil_r|].
  intros q. destruct (files w !! q) as [[|s]|]; auto.
Qed.



Lemma store_file_kept loc s w :
  node_at (files w) loc ≠ Some Dir →
  kept w (store loc (File s) (WriteText loc s) w).
Proof.
  intros Hn. split; [done|]. exists [WriteText loc s]. split; [done|].
  intros q. simpl. destruct (decide (loc = q)) as [<-|Hne].
  - rewrite lookup_insert_eq.
    destruct loc as [|c loc]; [done|]. simpl in Hn.
    destruct (files w !! (c :: loc)) as [[|old]|]; [done| |done].
    right. split; [set_solver|by exists s].
  - rewrite lookup_insert_ne by done.
    destruct (files w !! q) as [[|old]|]; auto.
Qed.

Lemma write_text_kept p s w r w' : write_text p s w = (r, w') → kept w w'.
Proof.
  destruct r as [u|e].
  - intros (loc & _ & Hn & ->)%write_text_ok_inv. by apply store_file_kept.
  - intros ->%write_text_raise_inv. apply kept_refl.
Qed.



Section removes_nothing.
Context `{PyStr}.



End removes_nothing.


(** ** Building into a fresh target *)

Lemma walk_app fs cur l1 l2 :
  walk fs cur (l1 ++ l2) =
  match walk fs cur l1 with
  | At d => walk fs d l2
  | Fail e => Fail e
  end.
Proof.
  revert cur. induction l1 as [|c l1 IH]; intros cur; simpl; [done|].
  destruct (node_at fs (enter cur c)) as [[|s]|]; [apply IH|done..].
Qed.

Lemma dir_at_mono w w' p o : dirs_le w w' → dir_at w p o → dir_at w' p o.
Proof.
  intros [Hcwd Hle]. unfold dir_at. rewrite Hcwd. by apply walk_mono.
Qed.

(** An existing directory is the directory its path names. *)
Lemma is_dir_dir_at p w :
  is_dir p w = true → ∃ o, dir_at w p o ∧ locate w p = At o.
Proof.
  intros (o & Hloc & Hn)%is_dir_spec. exists o. split; [|done].
  unfold dir_at, locate in *.
  destruct (parts p) as [|c0 l0] using rev_ind; [done|]. clear IHl0.
  rewrite removelast_last, last_snoc in Hloc. rewrite walk_app.
  destruct (walk (files w) _ l0) as [d|]; [|done].
  injection Hloc as <-. simpl. by rewrite Hn.
Qed.

Lemma truediv_plain p c :
  plain_component c = true →
  truediv p c = {| absolute := absolute p; parts := parts p ++ [c] |}.
Proof. intros Hc. unfold truediv. by rewrite (plain_Path_of _ Hc). Qed.

(** The place of a plain name directly under a directory. *)
Lemma locate_child w p o c :
  dir_at w p o → plain_component c = true →
  locate w (truediv p c) = At (o ++ [c]).
Proof.
  intros Ho Hc. rewrite (truediv_plain _ _ Hc). unfold locate. simpl.
  rewrite removelast_last, last_snoc. unfold dir_at in Ho. rewrite Ho.
  apply plain_component_spec in Hc as (_ & _ & _ & Hdots).
  unfold enter. by rewrite decide_False.
Qed.

Lemma dir_at_child w p o c :
  dir_at w p o → plain_component c = true →
  node_at (files w) (o ++ [c]) = Some Dir →
  dir_at w (truediv p c) (o ++ [c]).
Proof.
  intros Ho Hc Hn. rewrite (truediv_plain _ _ Hc). unfold dir_at in *. simpl.
  rewrite walk_app, Ho. simpl.
  apply plain_component_spec in Hc as (_ & _ & _ & Hdots).
  unfold enter. rewrite decide_False by done. by rewrite Hn.
Qed.

(** In a well-formed world nothing lies below a free place. *)
Lemma absent_below w b rel :
  world_ok w → node_at (files w) b = None → files w !! (b ++ rel) = None.
Proof.
  intros Hok Hb. induction rel as [|c rel IH] using rev_ind.
  - rewrite app_nil_r. by destruct b.
  - destruct (files w !! (b ++ rel ++ [c])) as [n|] eqn:Hn; [|done].
    rewrite app_assoc in Hn.
    assert (node_at (files w) (b ++ rel) = Some Dir) as Hd
      by (apply (Hok _ c); by rewrite Hn).
    destruct (b ++ rel) eqn:Hbr; [by destruct b|].
    simpl in Hd. congruence.
Qed.

Lemma mkdir_parents_from_fresh abs rparts exist_ok w loc :
  locate w {| absolute := abs; parts := rev rparts |} = At loc →
  node_at (files w) loc = None →
  mkdir_parents_from abs rparts exist_ok w = (Ok (), store loc Dir (Mkdir loc) w).
Proof.
  intros Hloc Hn. pose proof (os_mkdir_fresh _ _ _ Hloc Hn) as Hos.
  destruct rparts; simpl in *; by rewrite Hos.
Qed.

Lemma mkdir_parents_fresh exist_ok p w loc :
  locate w p = At loc → node_at (files w) loc = None →
  mkdir_parents exist_ok p w = (Ok (), store loc Dir (Mkdir loc) w).
Proof.
  intros Hloc Hn. apply mkdir_parents_from_fresh; [|done].
  rewrite rev_involutive. by destruct p.
Qed.

Lemma writable_store w loc s pc :
  node_at (files w) loc ≠ Some Dir →
  writable w pc → writable (store loc (File s) (WriteText loc s) w) pc.
Proof.
  intros Hn (s' & loc' & Hs & Hloc & Hn').
  pose proof (store_dirs_le loc (File s) (WriteText loc s) w (or_intror Hn)) as Hle.
  exists s', loc'. split; [done|]. split; [by eapply locate_mono|].
  destruct loc' as [|c loc']; [done|]. simpl in *.
  destruct (decide (loc = c :: loc')) as [->|Hne].
  - by rewrite lookup_insert_eq.
  - by rewrite lookup_insert_ne.
Qed.

(** Files that can all be written are all written. *)
Lemma emit_all_writable l w :
  Forall (writable w) l → ∃ w', emit_all l w = (Ok PyNone, w').
Proof.
  revert w. induction l as [|[p content] l IH]; intros w Hall; simpl.
  - by exists w.
  - apply Forall_cons in Hall as [(s & loc & Hs & Hloc & Hn) Hall].
    simpl in *. subst content. rewrite bind_run.
    assert (emit p (Ok s) w = (Ok PyNone, store loc (File s) (WriteText loc s) w))
      as ->.
    { unfold emit. rewrite bind_run. unfold lift. rewrite bind_run.
      unfold write_text. rewrite Hloc.
      by destruct (node_at (files w) loc) as [[|old]|]. }
    apply IH. eapply Forall_impl; [done|]. intros pc. by apply writable_store.
Qed.

Lemma Forall2_Forall_both {A B} (P : A → B → Prop) (Q : A → Prop) l k :
  Forall2 P l k → Forall Q l → Forall2 (λ x y, P x y ∧ Q x) l k.
Proof.
  induction 1 as [|x y l k HP _ IH]; [constructor|].
  intros [HQ Hall]%Forall_cons. constructor; auto.
Qed.

Lemma node_at_lookup (fs : gmap (list string) node) loc :
  loc ≠ [] → node_at fs loc = fs !! loc.
Proof. by destruct loc. Qed.

Lemma world_ok_empty : world_ok empty_world.
Proof. intros q c [n Hn]. simpl in Hn. by rewrite lookup_empty in Hn. Qed.

(** Files are written until a directory is in the place of one. *)
Lemma emit_all_blocked l1 pc l2 w s loc :
  Forall (writable w) l1 →
  pc.2 = Ok s → locate w pc.1 = At loc → node_at (files w) loc = Some Dir →
  ∃ w', emit_all (l1 ++ pc :: l2) w = (Raise (IsADirectoryError pc.1), w') ∧
        dirs_le w w'.
Proof.
  revert w. induction l1 as [|[p content] l1 IH]; intros w Hall Hs Hloc Hn.
  - exists w. split; [|apply dirs_le_refl]. destruct pc as [p content].
    simpl in *. subst content. rewrite bind_run. unfold emit.
    rewrite bind_run. unfold lift. rewrite bind_run. unfold write_text.
    by rewrite Hloc, Hn.
  - apply Forall_cons in Hall as [(s1 & loc1 & Hs1 & Hloc1 & Hn1) Hall].
    simpl in Hs1, Hloc1. subst content.
    pose proof (store_dirs_le loc1 (File s1) (WriteText loc1 s1) w (or_intror Hn1))
      as Hle.
    destruct (IH (store loc1 (File s1) (WriteText loc1 s1) w)) as (w' & Hrun & Hle').
    + eapply Forall_impl; [done|]. intros pc'. by apply writable_store.
    + done.
    + by eapply locate_mono.
    + by apply Hle.
    + exists w'. split; [|by eapply dirs_le_trans].
      change (emit_all (((p, Ok s1) :: l1) ++ pc :: l2) w)
        with ((emit p (Ok s1) ≫= λ _, emit_all (l1 ++ pc :: l2)) w).
      rewrite bind_run.
      assert (emit p (Ok s1) w =
              (Ok PyNone, store loc1 (File s1) (WriteText loc1 s1) w)) as ->.
      { unfold emit. rewrite bind_run. unfold lift. rewrite bind_run.
        unfold write_text. rewrite Hloc1.
        by destruct (node_at (files w) loc1) as [[|old]|]. }
      done.
Qed.

Section fresh_target.
Context `{PyStr}.

(** The build into a fresh target, up to the writing of the files. *)
Lemma fresh_target_setup output (project_info : gmap string string)
    name type c w :
  project_info !! "name" = Some name →
  project_info !! "type" = Some type →
  ScaffoldGenerator.creators !! type = Some c →
  plain_component name = true →
  world_ok w →
  is_dir (Path_of output) w = true →
  path_exists (truediv (Path_of output) name) w = false →
  let base := truediv (Path_of output) name in
  let pkg := package_identifier name in
  ∃ o,
    locate w (Path_of output) = At o ∧
    let w2 := store (o ++ [name; pkg]) Dir (Mkdir (o ++ [name; pkg]))
                (store (o ++ [name]) Dir (Mkdir (o ++ [name])) w) in
    ScaffoldGenerator._create_project_structure output project_info w =
      match emit_all (template_set c base (truediv base pkg) project_info) w2 with
      | (Ok _, w') => (Ok PyNone, w')
      | (Raise e, w') => (Raise e, w')
      end ∧
    dir_at w2 base (o ++ [name]) ∧
    dir_at w2 (truediv base pkg) (o ++ [name; pkg]) ∧
    ∀ rel, rel ≠ [] → rel ≠ [pkg] → files w2 !! (o ++ name :: rel) = None.
Proof.
  intros Hname Htype Hc Hplain Hok Hout Hfree base pkg.
  destruct (is_dir_dir_at _ _ Hout) as (o & Ho & Hloc_out).
  exists o. split; [done|].
  set (out := Path_of output) in *. set (md := truediv base pkg).
  assert (∀ rel, o ++ name :: rel = (o ++ [name]) ++ rel) as Hsplit
    by (intros rel; by rewrite <- app_assoc).
  rewrite (Hsplit [pkg]). set (b := o ++ [name]) in *.
  pose proof (plain_package_identifier _ Hplain) as Hpp. fold pkg in Hpp.
  assert (locate w base = At b) as Hlb by by apply locate_child.
  assert (node_at (files w) b = None) as Hnb.
  { unfold path_exists in Hfree. fold base in Hfree. rewrite Hlb in Hfree.
    by destruct (node_at (files w) b). }
  set (w1 := store b Dir (Mkdir b) w).
  assert (dirs_le w w1) as Hle1 by (apply store_dirs_le; by left).
  assert (dir_at w1 base b) as Hb1.
  { apply dir_at_child; [by eapply dir_at_mono|done|].
    apply node_at_store. unfold b. by destruct o. }
  assert (∀ rel, rel ≠ [] → files w1 !! (b ++ rel) = None) as Habs1.
  { intros rel Hrel. simpl. rewrite lookup_insert_ne; [by apply absent_below|].
    intros Heq. apply Hrel. apply (app_inv_head b). by rewrite app_nil_r. }
  assert (locate w1 md = At (b ++ [pkg])) as Hlm by by apply locate_child.
  assert (node_at (files w1) (b ++ [pkg]) = None) as Hnm.
  { rewrite node_at_lookup by (by destruct b). by apply Habs1. }
  intros w2. assert (dirs_le w1 w2) as Hle2 by (apply store_dirs_le; by left).
  split; [|split; [by eapply dir_at_mono|split]].
  - rewrite (create_project_structure_run _ _ _ _ Hname).
    fold out base. rewrite (mkdir_parents_fresh _ _ _ _ Hlb Hnb), Htype, Hc.
    fold w1. rewrite creator_create_template_set, bind_run. unfold lift.
    rewrite (getitem_Some _ _ _ Hname), bind_run, mkdir_false.
    fold pkg md. rewrite (os_mkdir_fresh _ _ _ Hlm Hnm). fold w2.
    by destruct (emit_all _ w2) as [[v|e] w'].
  - apply dir_at_child; [by eapply dir_at_mono|done|].
    apply node_at_store. by destruct b.
  - intros rel Hrel Hrel'. rewrite Hsplit. unfold w2. simpl.
    rewrite lookup_insert_ne.
    + change (files w1 !! (b ++ rel) = None). by apply Habs1.
    + intros Heq. by apply app_inv_head in Heq.
Qed.

End fresh_target.

(** ** Names that cannot be built *)

Lemma emit_all_blocked_at l k pc w s loc :
  l !! k = Some pc →
  Forall (writable w) (take k l) →
  pc.2 = Ok s → locate w pc.1 = At loc → node_at (files w) loc = Some Dir →
  ∃ w', emit_all l w = (Raise (IsADirectoryError pc.1), w') ∧ dirs_le w w'.
Proof.
  intros Hk Hall Hs Hloc Hn. rewrite <- (take_drop_middle l k pc Hk).
  by eapply emit_all_blocked.
Qed.

Lemma root_files_plain f :
  f ∈ root_files → Str.contains "_" f = false ∧ plain_component f = true.
Proof.
  revert f. apply Forall_forall. unfold root_files. by repeat constructor.
Qed.

Lemma truediv_no_component p s :
  parts (Path_of s) = [] →
  truediv p s =
  if absolute (Path_of s) then {| absolute := true; parts := [] |} else p.
Proof.
  unfold truediv. destruct (Path_of s) as [ab ps]. simpl. intros ->.
  destruct ab; [done|]. rewrite app_nil_r. by destruct p.
Qed.

Section blocked_names.
Context `{PyStr}.

(** Every template set begins with the root files, in their order. *)
Lemma template_set_root c base_dir module_dir (project_info : gmap string string) j f :
  root_files !! j = Some f →
  ∃ content,
    template_set c base_dir module_dir project_info !! j =
    Some (truediv base_dir f, content).
Proof.
  intros Hj. destruct j as [|[|[|j]]]; simpl in Hj; try done;
    injection Hj as <-; destruct c; by eexists.
Qed.

(** X11.  A project whose package identifier is the name of a root file
    ([pyproject.toml], [README.md] or [LICENSE]) cannot be built, not even
    into a fresh target: the package directory takes the place of that
    file, and writing the file raises [IsADirectoryError].  The directories
    made before stay. *)
Theorem root_file_name_blocks_build output (project_info : gmap string string)
    name type c w :
  has_fields project_info = true →
  project_info !! "name" = Some name →
  project_info !! "type" = Some type →
  ScaffoldGenerator.creators !! type = Some c →
  package_identifier name ∈ root_files →
  world_ok w →
  is_dir (Path_of output) w = true →
  path_exists (truediv (Path_of output) name) w = false →
  let module_dir :=
    truediv (truediv (Path_of output) name) (package_identifier name) in
  ∃ w',
    ScaffoldGenerator._create_project_structure output project_info w =
      (Raise (IsADirectoryError module_dir), w') ∧
    is_dir module_dir w' = true.
Proof.
  intros Hf Hname Htype Hc Hin Hok Hout Hfree module_dir.
  destruct (root_files_plain _ Hin) as [Hund Hpp].
  assert (name = package_identifier name) as Heq
    by by apply (replace_inv Str.hyphen Str.underscore).
  assert (plain_component name = true) as Hplain by by rewrite Heq.
  destruct (fresh_target_setup _ _ _ _ _ _ Hname Htype Hc Hplain Hok Hout Hfree)
    as (o & Hloc_out & Hrun & Hb2 & Hm2 & Habs2).
  set (base := truediv (Path_of output) name) in *.
  set (pkg := package_identifier name) in *.
  set (w2 := store (o ++ [name; pkg]) Dir _ _) in *.
  apply list_elem_of_lookup in Hin as [k Hk].
  destruct (template_set_root c base module_dir project_info k pkg Hk)
    as [content Hpc].
  pose proof (template_set_texts c base module_dir project_info Hf) as Htexts.
  destruct (proj1 (Forall_lookup _ _) Htexts k _ Hpc) as (s & Hs & _).
  destruct (emit_all_blocked_at _ k _ w2 s (o ++ [name; pkg]) Hpc)
    as (w' & Hemit & Hle); try done.
  - apply Forall_lookup. intros j pc Hj.
    apply lookup_take_Some in Hj as [Hj Hjk].
    destruct (root_files !! j) as [f|] eqn:Hf_j.
    + destruct (template_set_root c base module_dir project_info j f Hf_j)
        as [content' Hpc'].
      assert (pc = (truediv base f, content')) as -> by congruence.
      destruct (proj1 (Forall_lookup _ _) Htexts j _ Hpc') as (s' & Hs' & _).
      assert (f ∈ root_files) as Hf_in by by eapply list_elem_of_lookup_2.
      destruct (root_files_plain _ Hf_in) as [_ Hplain_f].
      exists s', (o ++ [name; f]). split; [done|]. split.
      * simpl. rewrite (locate_child _ _ _ _ Hb2 Hplain_f). by rewrite <- app_assoc.
      * rewrite node_at_lookup by (by destruct o).
        rewrite Habs2; [done..|]. intros [= ->].
        assert (NoDup root_files) as Hnd by by apply (bool_decide_unpack _).
        pose proof (NoDup_lookup _ _ _ _ Hnd Hf_j Hk). lia.
    + apply lookup_ge_None in Hf_j. apply lookup_lt_Some in Hk. lia.
  - simpl. rewrite (locate_child _ _ _ _ Hb2 Hpp). by rewrite <- app_assoc.
  - apply node_at_store. by destruct o.
  - exists w'. split.
    + rewrite Hrun. fold module_dir. by rewrite Hemit.
    + apply (is_dir_mono _ _ _ Hle), is_dir_spec. exists (o ++ [name; pkg]).
      split.
      * unfold module_dir. fold base pkg.
        rewrite (locate_child _ _ _ _ Hb2 Hpp). by rewrite <- app_assoc.
      * apply node_at_store. by destruct o.
Qed.

(** X12.  A name without any path component (the empty name, ["."],
    ["/"]) never builds: the package directory would be the base directory
    itself, so whenever the base-directory step succeeds the creator's
    [mkdir] finds it existing, and the build ends in an exception. *)
Theorem name_without_component_never_builds output
    (project_info : gmap string string) name w r w' :
  project_info !! "name" = Some name →
  parts (Path_of name) = [] →
  ScaffoldGenerator._create_project_structure output project_info w = (r, w') →
  ∃ e, r = Raise e.
Proof.
  intros Hname Hparts Hrun. destruct r as [v|e]; [exfalso|by exists e].
  apply create_project_structure_ok_inv in Hrun
    as (_ & name' & type & c & w1 & v1 & Hname' & _ & _ & Hmk & Hcr).
  assert (name' = name) as -> by congruence.
  apply mkdir_parents_ok in Hmk as [_ Hbase].
  apply creator_create_ok_inv in Hcr as (name' & loc & Hname'' & Hloc & Hn & _).
  assert (name' = name) as -> by congruence.
  assert (truediv (truediv (Path_of output) name) (package_identifier name) =
          truediv (Path_of output) name) as Heq.
  { assert (parts (Path_of (package_identifier name)) = []) as Hparts'
      by (by rewrite Path_of_package_identifier, Hparts).
    rewrite (truediv_no_component _ _ Hparts'), (truediv_no_component _ _ Hparts).
    rewrite Path_of_package_identifier. cbn [absolute].
    by destruct (absolute (Path_of name)). }
  rewrite Heq in Hloc. apply is_dir_spec in Hbase as (loc' & Hloc' & Hn').
  congruence.
Qed.

(** X13.  A name that begins with a slash is an absolute path: the base
    directory is that path, and the build is the same whatever the output
    directory. *)
Theorem absolute_name_ignores_output output1 output2
    (project_info : gmap string string) name w :
  project_info !! "name" = Some name →
  absolute (Path_of name) = true →
  truediv (Path_of output1) name = Path_of name ∧
  ScaffoldGenerator._create_project_structure output1 project_info w =
  ScaffoldGenerator._create_project_structure output2 project_info w.
Proof.
  intros Hname Habs.
  assert (∀ p, truediv p name = Path_of name) as Hbase
    by (intros p; unfold truediv; by rewrite Habs).
  split; [done|].
  by rewrite !(create_project_structure_run _ _ _ _ Hname), !Hbase.
Qed.

(** X14.  The dictionary of a confirmed prompt has the seven keys and no
    other, each answer is found under its key, and [handle_scaffold] is the
    build of that dictionary. *)
Theorem collect_holds_answers output a :
  ans_confirm a = true →
  let d := ScaffoldGenerator._collect_project_info a in
  dom d = list_to_set fields ∧
  d !! "type" = Some (ans_type a) ∧
  d !! "name" = Some (ans_name a) ∧
  d !! "version" = Some (ans_version a) ∧
  d !! "description" = Some (ans_description a) ∧
  d !! "author_name" = Some (ans_author_name a) ∧
  d !! "author_email" = Some (ans_author_email a) ∧
  d !! "homepage" = Some (ans_homepage a) ∧
  ScaffoldGenerator.handle_scaffold output a =
  ScaffoldGenerator._create_project_structure output d.
Proof.
  intros Hconfirm d.
  assert (d ≠ ∅) as Hne by by apply collect_confirmed.
  unfold ScaffoldGenerator.handle_scaffold. fold d. rewrite decide_False by done.
  unfold d, ScaffoldGenerator._collect_project_info. rewrite Hconfirm.
  repeat split; by simplify_map_eq.
Qed.

End blocked_names.

Lemma root_file_name_blocks_build_witness :
  package_identifier "README.md" ∈ root_files ∧
  ∃ w',
    ScaffoldGenerator._create_project_structure "."
      (project "module" "README.md" "demo") empty_world =
    (Raise (IsADirectoryError (mkPath false ["README.md"; "README.md"])), w').
Proof.
  assert (package_identifier "README.md" ∈ root_files) as Hin
    by (by apply (bool_decide_unpack _)).
  split; [exact Hin|].
  destruct (root_file_name_blocks_build "." (project "module" "README.md" "demo")
              "README.md" "module" cls_ModuleCreator empty_world
              eq_refl eq_refl eq_refl eq_refl Hin world_ok_empty eq_refl eq_refl)
    as (w' & Hrun & _).
  by exists w'.
Defined.

Lemma name_without_component_never_builds_witness :
  let run := ScaffoldGenerator._create_project_structure "."
               (project "module" "." "demo") empty_world in
  parts (Path_of ".") = [] ∧
  run = (Raise (FileExistsError (mkPath false [])), empty_world) ∧
  ∃ e, run.1 = Raise e.
Proof.
  intros run.
  assert (run = (Raise (FileExistsError (mkPath false [])), empty_world)) as Hrun
    by (vm_compute; reflexivity).
  split; [reflexivity|]. split; [exact Hrun|].
  exact (name_without_component_never_builds "." (project "module" "." "demo")
           "." empty_world run.1 run.2 eq_refl eq_refl
           (surjective_pairing run)).
Defined.

Lemma absolute_name_ignores_output_witness :
  absolute (Path_of "/srv/ErisPulse-Demo") = true ∧
  ScaffoldGenerator._create_project_structure "here"
    (project "cli" "/srv/ErisPulse-Demo" "demo") empty_world =
  ScaffoldGenerator._create_project_structure "there"
    (project "cli" "/srv/ErisPulse-Demo" "demo") empty_world.
Proof.
  split; [reflexivity|].
  exact (proj2 (absolute_name_ignores_output "here" "there"
                  (project "cli" "/srv/ErisPulse-Demo" "demo")
                  "/srv/ErisPulse-Demo" empty_world eq_refl eq_refl)).
Defined.

Lemma collect_holds_answers_witness :
  ans_confirm accepted = true ∧
  ScaffoldGenerator._collect_project_info accepted !! "name" = Some "ErisPulse-Demo" ∧
  ScaffoldGenerator.handle_scaffold "." accepted =
  ScaffoldGenerator._create_project_structure "."
    (ScaffoldGenerator._collect_project_info accepted).
Proof.
  pose proof (collect_holds_answers "." accepted eq_refl)
    as (_ & _ & Hname & _ & _ & _ & _ & _ & Hrun).
  split; [reflexivity|]. split; [exact Hname|exact Hrun].
Defined.

(** ** The file system stays well-formed *)

Lemma walk_dir fs cur comps d :
  node_at fs cur = Some Dir → walk fs cur comps = At d → node_at fs d = Some Dir.
Proof.
  revert cur. induction comps as [|c comps IH]; intros cur Hcur; simpl.
  - by intros [= <-].
  - destruct (node_at fs (enter cur c)) as [[|s]|] eqn:Hn; [|done..].
    by apply IH.
Qed.

(** A free place that a path names lies directly in a directory. *)
Lemma locate_free_parent w p loc :
  healthy w → locate w p = At loc → node_at (files w) loc = None →
  ∃ d c, loc = d ++ [c] ∧ node_at (files w) d = Some Dir.
Proof.
  intros [Hok Hcwd] Hloc Hn. unfold locate in Hloc.
  destruct (walk (files w) _ _) as [d|] eqn:Hw; [|done].
  assert (node_at (files w) d = Some Dir) as Hd.
  { eapply walk_dir; [|done]. by destruct (absolute p). }
  destruct (last (parts p)) as [c|]; injection Hloc as <-; [|congruence].
  unfold enter in *. case_decide; [|by exists d, c].
  destruct d as [|x d _] using rev_ind; [done|].
  rewrite removelast_last in Hn.
  rewrite (Hok d x) in Hn; [done|].
  rewrite node_at_lookup in Hd by (by destruct d). by rewrite Hd.
Qed.

Lemma store_healthy loc n ev w :
  healthy w →
  n = Dir ∨ node_at (files w) loc ≠ Some Dir →
  (∀ d c, loc = d ++ [c] → node_at (files w) d = Some Dir) →
  healthy (store loc n ev w).
Proof.
  intros [Hok Hcwd] Hn Hparent.
  pose proof (store_dirs_le loc n ev w Hn) as [_ Hle].
  split; [|by apply Hle]. intros q x [m Hm]. apply Hle. simpl in Hm.
  destruct (decide (loc = q ++ [x])) as [->|Hne]; [by eapply Hparent|].
  rewrite lookup_insert_ne in Hm by done. apply (Hok q x). by exists m.
Qed.

Lemma os_mkdir_healthy p w r w' : healthy w → os_mkdir p w = (r, w') → healthy w'.
Proof.
  intros Hw. destruct r as [u|e].
  - intros (loc & Hloc & Hn & ->)%os_mkdir_ok_inv.
    destruct (locate_free_parent _ _ _ Hw Hloc Hn) as (d & c & -> & Hd).
    apply store_healthy; [done|by left|].
    by intros d' c' [-> _]%app_inj_tail.
  - by intros ->%os_mkdir_raise_inv.
Qed.

Lemma mkdir_healthy exist_ok p w r w' :
  healthy w → mkdir exist_ok p w = (r, w') → healthy w'.
Proof.
  intros Hw. unfold mkdir.
  destruct (os_mkdir p w) as [[u|e] w1] eqn:Hos;
    apply (os_mkdir_healthy _ _ _ _ Hw) in Hos.
  - by intros [= _ <-].
  - destruct e; try destruct (exist_ok && is_dir p w1); by intros [= _ <-].
Qed.

Lemma mkdir_parents_from_healthy abs rparts exist_ok w r w' :
  healthy w → mkdir_parents_from abs rparts exist_ok w = (r, w') → healthy w'.
Proof.
  revert exist_ok w r w'.
  induction rparts as [|c rparent IH]; intros exist_ok w r w' Hw; simpl.
  - destruct (os_mkdir _ w) as [[u|e] w1] eqn:Hos;
      apply (os_mkdir_healthy _ _ _ _ Hw) in Hos.
    + by intros [= _ <-].
    + destruct e; try destruct (exist_ok && is_dir _ w1); by intros [= _ <-].
  - destruct (os_mkdir _ w) as [[u|e] w1] eqn:Hos;
      apply (os_mkdir_healthy _ _ _ _ Hw) in Hos.
    + by intros [= _ <-].
    + destruct e; try (destruct (exist_ok && is_dir _ w1); by intros [= _ <-]).
      destruct (mkdir_parents_from abs rparent true w1) as [[u1|e1] w2] eqn:Hrec;
        apply (IH _ _ _ _ Hos) in Hrec.
      * by apply mkdir_healthy.
      * by intros [= _ <-].
Qed.

Lemma write_text_healthy p s w r w' :
  healthy w → write_text p s w = (r, w') → healthy w'.
Proof.
  intros Hw. destruct r as [u|e].
  - intros (loc & Hloc & Hn & ->)%write_text_ok_inv.
    apply store_healthy; [done|by right|]. intros d c ->.
    destruct (node_at (files w) (d ++ [c])) as [n|] eqn:Hnode.
    + apply (proj1 Hw d c). rewrite node_at_lookup in Hnode by (by destruct d).
      by rewrite Hnode.
    + destruct (locate_free_parent _ _ _ Hw Hloc Hnode) as (d' & c' & Heq & Hd).
      by apply app_inj_tail in Heq as [-> _].
  - by intros ->%write_text_raise_inv.
Qed.

Lemma emit_all_healthy l w r w' : healthy w → emit_all l w = (r, w') → healthy w'.
Proof.
  revert w. induction l as [|[p content] l IH]; intros w Hw; simpl.
  - by intros [= _ <-].
  - rewrite bind_run. unfold emit at 1. rewrite bind_run. unfold lift.
    destruct content as [s|e]; [|by intros [= _ <-]]. rewrite bind_run.
    destruct (write_text p s w) as [[u|e] w1] eqn:Hwr;
      apply (write_text_healthy _ _ _ _ _ Hw) in Hwr.
    + by apply IH.
    + by intros [= _ <-].
Qed.

Lemma creator_create_healthy `{PyStr} c base_dir
    (project_info : gmap string string) w r w' :
  healthy w →
  ScaffoldGenerator.creator_create c base_dir project_info w = (r, w') →
  healthy w'.
Proof.
  intros Hw. rewrite creator_create_template_set, bind_run. unfold lift.
  destruct (getitem project_info "name") as [name|e]; [|by intros [= _ <-]].
  rewrite bind_run.
  destruct (mkdir false _ w) as [[u|e] w1] eqn:Hmk;
    apply (mkdir_healthy _ _ _ _ _ Hw) in Hmk.
  - by apply emit_all_healthy.
  - by intros [= _ <-].
Qed.

(** X15.  The build keeps the file system well-formed whatever its
    outcome: when every node lies in a directory and the working directory
    is one, this is still so afterwards.  The hypotheses of the other
    properties therefore hold again for the next run. *)
Theorem build_keeps_world_healthy `{PyStr} output
    (project_info : gmap string string) w r w' :
  healthy w →
  ScaffoldGenerator._create_project_structure output project_info w = (r, w') →
  healthy w'.
Proof.
  intros Hw. unfold ScaffoldGenerator._create_project_structure.
  rewrite bind_run. unfold lift at 1.
  destruct (getitem project_info "name") as [name|e]; [|by intros [= _ <-]].
  rewrite bind_run.
  destruct (mkdir_parents true _ w) as [[u|e] w1] eqn:Hmk;
    apply (mkdir_parents_from_healthy _ _ _ _ _ _ Hw) in Hmk;
    [|by intros [= _ <-]].
  rewrite bind_run. unfold lift at 1.
  destruct (getitem project_info "type") as [type|e]; [|by intros [= _ <-]].
  rewrite bind_run. unfold lift at 1.
  destruct (ScaffoldGenerator.creators_getitem type) as [c|e];
    [|by intros [= _ <-]].
  rewrite bind_run.
  destruct (ScaffoldGenerator.creator_create c _ project_info w1)
    as [[v|e] w2] eqn:Hcr; apply (creator_create_healthy _ _ _ _ _ _ Hmk) in Hcr;
    by intros [= _ <-].
Qed.

Lemma healthy_world_ok w : healthy w → world_ok w.
Proof. by intros [Hok _]. Qed.

Lemma healthy_empty : healthy empty_world.
Proof. split; [apply world_ok_empty|done]. Qed.

Lemma build_keeps_world_healthy_witness :
  let run := ScaffoldGenerator._create_project_structure "."
               (project "module" "ErisPulse-Demo" "demo") empty_world in
  healthy empty_world ∧ run = (Ok PyNone, run.2) ∧ healthy run.2.
Proof.
  intros run.
  assert (run = (Ok PyNone, run.2)) as Hrun by (vm_compute; reflexivity).
  split; [apply healthy_empty|]. split; [exact Hrun|].
  exact (build_keeps_world_healthy "." (project "module" "ErisPulse-Demo" "demo")
           empty_world (Ok PyNone) run.2 healthy_empty Hrun).
Defined.

(** * The written files *)

(** ** The texts a creator has computed *)

Section computed_texts.
Context `{PyStr}.

Lemma Ok_inj {A} (a b : A) : @Ok A a = Ok b → a = b.
Proof. by intros [= ->]. Qed.

(** A manifest that has been computed ends with the entry-point table. *)
Lemma pyproject_ok_inv c (project_info : gmap string string) name s :
  project_info !! "name" = Some name →
  pyproject_content c project_info = Ok s →
  ∃ head, s = head +:+
    entry_point_table (entry_point_group c) (entry_point_key c name)
      (package_identifier name) (entry_point_symbol c name).
Proof.
  intros Hname.
  destruct c; unfold pyproject_content, ModuleCreator.pyproject_content,
    CLICreator.pyproject_content, AdapterCreator.pyproject_content;
    rewrite !(getitem_Some _ _ _ Hname); cbn [mbind result_bind];
    repeat match goal with
    | |- context [getitem ?d ?k] =>
        destruct (getitem d k); cbn [mbind result_bind]; [|done]
    end;
    unfold mret, result_ret; intros <-%Ok_inj.
  all: match goal with
       | |- context [Str.text ?l] =>
           exists (Str.text (take (length l - 2) l))
       end.
  all: unfold entry_point_table; rewrite <- text_app; reflexivity.
Qed.

(** A source file that has been computed has the defining line. *)
Lemma source_ok_inv c (project_info : gmap string string) name s :
  project_info !! "name" = Some name →
  source_content c project_info = Ok s →
  ∃ before after, s = Str.text (before ++ definition_line c name :: after).
Proof.
  intros Hname.
  destruct c; unfold source_content, ModuleCreator.core_content,
    CLICreator.cli_content, AdapterCreator.core_content;
    rewrite !(getitem_Some _ _ _ Hname); cbn [mbind result_bind];
    repeat match goal with
    | |- context [getitem ?d ?k] =>
        destruct (getitem d k); cbn [mbind result_bind]; [|done]
    end;
    unfold mret, result_ret; intros <-%Ok_inj.
  - match goal with
    | |- context [Str.text ?l] => by exists (take 4 l), (drop 5 l)
    end.
  - match goal with
    | |- context [Str.text ?l] => by exists (take 5 l), (drop 6 l)
    end.
  - match goal with
    | |- context [Str.text ?l] => by exists (take 7 l), (drop 8 l)
    end.
Qed.

Lemma init_ok_inv c (project_info : gmap string string) name s :
  project_info !! "name" = Some name →
  init_content c project_info = Ok s →
  s = Str.cat ["from ."; source_module c; " import "; entry_point_symbol c name].
Proof.
  intros Hname. destruct c; unfold init_content, AdapterCreator.init_content;
    rewrite ?(getitem_Some _ _ _ Hname); by intros <-%Ok_inj.
Qed.

(** The manifest, the [__init__] and the source file it imports from are
    files of every template set. *)
Lemma template_set_has_pyproject c base_dir module_dir (project_info : gmap string string) :
  (truediv base_dir "pyproject.toml", pyproject_content c project_info)
  ∈ template_set c base_dir module_dir project_info.
Proof. destruct c; apply list_elem_of_here. Qed.

Lemma template_set_has_init c base_dir module_dir (project_info : gmap string string) :
  (truediv module_dir "__init__.py", init_content c project_info)
  ∈ template_set c base_dir module_dir project_info.
Proof. destruct c; unfold template_set, init_content; set_solver. Qed.

Lemma template_set_has_source c base_dir module_dir (project_info : gmap string string) :
  (truediv module_dir (source_module c +:+ ".py"), source_content c project_info)
  ∈ template_set c base_dir module_dir project_info.
Proof.
  destruct c; unfold template_set, source_content;
    change ("Core" +:+ ".py") with "Core.py"; change ("cli" +:+ ".py") with "cli.py";
    set_solver.
Qed.

(** After a successful creator every path of its template set names a
    regular file that holds the computed text. *)
Lemma creator_create_ok_holds c base_dir (project_info : gmap string string) w v w' :
  ScaffoldGenerator.creator_create c base_dir project_info w = (Ok v, w') →
  ∃ name,
    project_info !! "name" = Some name ∧
    ∀ p content,
      (p, content) ∈ template_set c base_dir
                       (truediv base_dir (package_identifier name)) project_info →
      ∃ loc s, content = Ok s ∧ locate w' p = At loc ∧
               files w' !! loc = Some (File s).
Proof.
  intros (name & mloc & Hname & _ & _ & Hrest)%creator_create_ok_inv.
  apply emit_all_ok in Hrest as (_ & _ & items & Hall & _ & Hfiles).
  exists name. split; [done|].
  intros p content [i Hi]%list_elem_of_lookup.
  destruct (Forall2_lookup_l _ _ _ _ _ Hall Hi) as ([loc s] & Hit & Hcontent & Hloc).
  exists loc, s. simpl in *. repeat split; try done.
  rewrite Hfiles. apply stored_lookup; [by eapply template_set_places|].
  by eapply list_elem_of_lookup_2.
Qed.

Lemma create_project_structure_ok_holds output (project_info : gmap string string)
    w v w' :
  ScaffoldGenerator._create_project_structure output project_info w = (Ok v, w') →
  holds_template_set output project_info w'.
Proof.
  intros (_ & name & type & c & w1 & v1 & Hname & Htype & Hc & _ & Hcr)
    %create_project_structure_ok_inv.
  apply creator_create_ok_holds in Hcr as (name' & Hname' & Hholds).
  assert (name' = name) as -> by congruence.
  by exists name, type, c.
Qed.

End computed_texts.

(** ** The registration written into the manifest *)

(** C2.  The registration key that a build writes into the generated
    manifest is derived from the name: whenever a creator, or the whole
    build, has run to its end, [pyproject.toml] under the base directory is
    a regular file whose text ends with the table
    [[project.entry-points."erispulse.<type>"]] and the line
    ["<key>" = "<package identifier>:<symbol>"], where the key is the
    lower-cased short name for type cli and the short name unchanged for
    types module and adapter.  The text a creator computes for the manifest
    ends so, and for a dictionary with all fields it is computed. *)
Theorem entry_point_key_by_type `{PyStr} (project_info : gmap string string)
    name type c :
  project_info !! "name" = Some name →
  project_info !! "type" = Some type →
  ScaffoldGenerator.creators !! type = Some c →
  let key := if decide (type = "cli") then str_lower (short_name name)
             else short_name name in
  let table := entry_point_table ("erispulse." +:+ type) key
                 (package_identifier name) (entry_point_symbol c name) in
  (∀ base_dir w v w',
     ScaffoldGenerator.creator_create c base_dir project_info w = (Ok v, w') →
     ∃ loc head,
       locate w' (truediv base_dir "pyproject.toml") = At loc ∧
       files w' !! loc = Some (File (head +:+ table))) ∧
  (∀ output w v w',
     ScaffoldGenerator._create_project_structure output project_info w = (Ok v, w') →
     ∃ loc head,
       locate w' (truediv (truediv (Path_of output) name) "pyproject.toml") = At loc ∧
       files w' !! loc = Some (File (head +:+ table))) ∧
  (∀ s, pyproject_content c project_info = Ok s → ∃ head, s = head +:+ table) ∧
  (has_fields project_info = true → ∃ s, pyproject_content c project_info = Ok s).
Proof.
  intros Hname Htype Hc key table.
  assert (table = entry_point_table (entry_point_group c) (entry_point_key c name)
                    (package_identifier name) (entry_point_symbol c name)) as Htable.
  { by destruct (creators_lookup _ _ Hc) as [[-> ->]|[[-> ->]|[-> ->]]]. }
  rewrite Htable. clear key table Htable.
  assert (∀ base_dir w v w',
    ScaffoldGenerator.creator_create c base_dir project_info w = (Ok v, w') →
    ∃ loc head,
      locate w' (truediv base_dir "pyproject.toml") = At loc ∧
      files w' !! loc = Some (File (head +:+
        entry_point_table (entry_point_group c) (entry_point_key c name)
          (package_identifier name) (entry_point_symbol c name)))) as Hcreate.
  { intros base_dir w v w' (name' & Hname' & Hholds)%creator_create_ok_holds.
    destruct (Hholds _ _ (template_set_has_pyproject c base_dir _ project_info))
      as (loc & s & Hs & Hloc & Hfile).
    destruct (pyproject_ok_inv _ _ _ _ Hname Hs) as [head ->].
    by exists loc, head. }
  split; [exact Hcreate|]. split; [|split].
  - intros output w v w' (_ & name' & type' & c' & w1 & v1 & Hname' & Htype' & Hc' & _ & Hcr)
      %create_project_structure_ok_inv.
    assert (name' = name) as -> by congruence.
    assert (type' = type) as -> by congruence.
    assert (c' = c) as -> by congruence.
    by eapply Hcreate.
  - intros s Hs. by eapply pyproject_ok_inv.
  - intros Hf. destruct (pyproject_entry_point c project_info name Hf Hname) as [head Hs].
    by eexists.
Qed.

Lemma entry_point_key_by_type_witness :
  let project_info := project "cli" "ErisPulse-Demo" "demo" in
  let run := ScaffoldGenerator._create_project_structure "." project_info empty_world in
  run = (Ok PyNone, run.2) ∧
  ∃ loc head,
    locate run.2 (truediv (truediv (Path_of ".") "ErisPulse-Demo") "pyproject.toml")
      = At loc ∧
    files run.2 !! loc =
      Some (File (head +:+
        entry_point_table "erispulse.cli" "demo" "ErisPulse_Demo" "cli_register")).
Proof.
  intros project_info run.
  assert (run = (Ok PyNone, run.2)) as Hrun by (vm_compute; reflexivity).
  split; [exact Hrun|].
  exact (proj1 (proj2 (entry_point_key_by_type project_info "ErisPulse-Demo" "cli"
                         cls_CLICreator eq_refl eq_refl eq_refl))
           "." empty_world PyNone run.2 Hrun).
Defined.

(** ** What the package exports *)

Lemma short_name_empty name :
  short_name name = "" ↔ name = "" ∨ ∃ pre, name = pre +:+ "-".
Proof.
  unfold short_name. split.
  - intros Ht. destruct (split_last_spec Str.hyphen name) as [_ [[_ Hs]|[pre Hs]]].
    + left. congruence.
    + right. exists pre. by rewrite Ht in Hs.
  - intros [->|[pre ->]]; [done|].
    change "-" with (String Str.hyphen "").
    by rewrite split_last_suffix.
Qed.

(** C9 as stated fails: for an adapter named [Foo-] the build succeeds,
    the short name is empty, the manifest registers ["" = "Foo_:"] and
    [__init__.py] is [from .Core import ] with nothing after it: no symbol
    is exported. *)
Lemma hyphen_ended_adapter_exports_nothing :
  let project_info := project "adapter" "Foo-" "demo" in
  let run := ScaffoldGenerator._create_project_structure "." project_info empty_world in
  run.1 = Ok PyNone ∧
  short_name "Foo-" = "" ∧
  files run.2 !! ["Foo-"; "Foo_"; "__init__.py"] = Some (File "from .Core import ") ∧
  ∃ head, files run.2 !! ["Foo-"; "pyproject.toml"] =
    Some (File (head +:+ entry_point_table "erispulse.adapter" "" "Foo_" "")).
Proof.
  intros project_info run.
  split; [by vm_compute|]. split; [by vm_compute|]. split; [by vm_compute|].
  destruct (pyproject_entry_point cls_AdapterCreator project_info "Foo-" eq_refl eq_refl)
    as [head Hs].
  exists head.
  assert (files run.2 !! ["Foo-"; "pyproject.toml"] =
          match pyproject_content cls_AdapterCreator project_info with
          | Ok s => Some (File s)
          | Raise _ => None
          end) as -> by (by vm_compute).
  by rewrite Hs.
Qed.

(** C9, as the code has it.  After a successful build the package
    [__init__.py] is exactly [from .<module> import <symbol>], the manifest
    ends with the registration ["<key>" = "<package identifier>:<symbol>"]
    of the same symbol, and the file [<module>.py] beside [__init__.py]
    has the line that defines it: [class Main:] for a module,
    [def cli_register(...)] for a cli, [class <short name>(BaseAdapter):]
    for an adapter.  The symbol is empty, and nothing is exported, exactly
    for an adapter whose name is empty or ends with a hyphen. *)
Theorem init_imports_manifest_symbol `{PyStr} output
    (project_info : gmap string string) w v w' :
  ScaffoldGenerator._create_project_structure output project_info w = (Ok v, w') →
  ∃ name type c,
    project_info !! "name" = Some name ∧
    project_info !! "type" = Some type ∧
    ScaffoldGenerator.creators !! type = Some c ∧
    let base_dir := truediv (Path_of output) name in
    let module_dir := truediv base_dir (package_identifier name) in
    let symbol := match c with
                  | cls_ModuleCreator => "Main"
                  | cls_CLICreator => "cli_register"
                  | cls_AdapterCreator => short_name name
                  end in
    (∃ loc,
       locate w' (truediv module_dir "__init__.py") = At loc ∧
       files w' !! loc =
         Some (File (Str.cat ["from ."; source_module c; " import "; symbol]))) ∧
    (∃ loc head,
       locate w' (truediv base_dir "pyproject.toml") = At loc ∧
       files w' !! loc =
         Some (File (head +:+
           entry_point_table (entry_point_group c) (entry_point_key c name)
             (package_identifier name) symbol))) ∧
    (∃ loc before after,
       locate w' (truediv module_dir (source_module c +:+ ".py")) = At loc ∧
       files w' !! loc =
         Some (File (Str.text (before ++
           match c with
           | cls_ModuleCreator => Str.cat ["class "; symbol; ":"]
           | cls_CLICreator =>
               Str.cat ["def "; symbol; "(subparsers: Any, console: Console) -> None:"]
           | cls_AdapterCreator => Str.cat ["class "; symbol; "(BaseAdapter):"]
           end :: after)))) ∧
    (symbol = "" ↔
     c = cls_AdapterCreator ∧ (name = "" ∨ ∃ pre, name = pre +:+ "-")).
Proof.
  intros (name & type & c & Hname & Htype & Hc & Hholds)%create_project_structure_ok_holds.
  exists name, type, c. do 3 (split; [done|]). split; [|split; [|split; [|split]]].
  - destruct (Hholds _ _ (template_set_has_init c _ _ project_info))
      as (loc & s & Hs & Hloc & Hfile).
    rewrite (init_ok_inv _ _ _ _ Hname Hs) in Hfile.
    exists loc. split; [done|]. by destruct c.
  - destruct (Hholds _ _ (template_set_has_pyproject c _ _ project_info))
      as (loc & s & Hs & Hloc & Hfile).
    destruct (pyproject_ok_inv _ _ _ _ Hname Hs) as [head ->].
    exists loc, head. split; [done|]. by destruct c.
  - destruct (Hholds _ _ (template_set_has_source c _ _ project_info))
      as (loc & s & Hs & Hloc & Hfile).
    destruct (source_ok_inv _ _ _ _ Hname Hs) as (before & after & ->).
    exists loc, before, after. split; [done|]. by destruct c.
  - destruct c; try done. intros Hs. split; [done|]. by apply short_name_empty.
  - intros [-> Hn]. by apply short_name_empty.
Qed.

Lemma init_imports_manifest_symbol_witness :
  let project_info := project "adapter" "Foo-Bar" "demo" in
  let run := ScaffoldGenerator._create_project_structure "." project_info empty_world in
  run = (Ok PyNone, run.2) ∧
  ∃ name type c,
    project_info !! "name" = Some name ∧
    project_info !! "type" = Some type ∧
    ScaffoldGenerator.creators !! type = Some c ∧
    let base_dir := truediv (Path_of ".") name in
    let module_dir := truediv base_dir (package_identifier name) in
    let symbol := match c with
                  | cls_ModuleCreator => "Main"
                  | cls_CLICreator => "cli_register"
                  | cls_AdapterCreator => short_name name
                  end in
    (∃ loc,
       locate run.2 (truediv module_dir "__init__.py") = At loc ∧
       files run.2 !! loc =
         Some (File (Str.cat ["from ."; source_module c; " import "; symbol]))) ∧
    (∃ loc head,
       locate run.2 (truediv base_dir "pyproject.toml") = At loc ∧
       files run.2 !! loc =
         Some (File (head +:+
           entry_point_table (entry_point_group c) (entry_point_key c name)
             (package_identifier name) symbol))) ∧
    (∃ loc before after,
       locate run.2 (truediv module_dir (source_module c +:+ ".py")) = At loc ∧
       files run.2 !! loc =
         Some (File (Str.text (before ++
           match c with
           | cls_ModuleCreator => Str.cat ["class "; symbol; ":"]
           | cls_CLICreator =>
               Str.cat ["def "; symbol; "(subparsers: Any, console: Console) -> None:"]
           | cls_AdapterCreator => Str.cat ["class "; symbol; "(BaseAdapter):"]
           end :: after)))) ∧
    (symbol = "" ↔
     c = cls_AdapterCreator ∧ (name = "" ∨ ∃ pre, name = pre +:+ "-")).
Proof.
  intros project_info run.
  assert (run = (Ok PyNone, run.2)) as Hrun by (vm_compute; reflexivity).
  split; [exact Hrun|].
  exact (init_imports_manifest_symbol "." project_info empty_world PyNone run.2 Hrun).
Defined.

(** ** Files that are there before the build *)










Section existing_files.
Context `{PyStr}.



End existing_files.



(** ** The lookups of a build started from the prompt *)

(** X8.  A build started from the prompt never fails on a dictionary
    lookup: when the confirmation is given and the type is one of the
    three choices, no exception that [handle_scaffold] lets through is the
    [KeyError] of [project_info[...]] or [creators[...]]. *)
Theorem prompt_build_finds_every_key `{PyStr} output a w e w' :
  ans_confirm a = true →
  ans_type a ∈ ["module"; "cli"; "adapter"] →
  ScaffoldGenerator.handle_scaffold output a w = (Raise e, w') →
  ∀ key, e ≠ KeyError key.
Proof.
  intros Hconfirm Htype Hrun key ->. revert Hrun.
  unfold ScaffoldGenerator.handle_scaffold.
  rewrite decide_False by by apply collect_confirmed.
  assert (∃ c, ScaffoldGenerator.creators !! ans_type a = Some c) as [c Hc].
  { apply elem_of_cons in Htype as [->|Htype]; [by eexists|].
    apply elem_of_cons in Htype as [->|Htype]; [by eexists|].
    apply list_elem_of_singleton in Htype as ->. by eexists. }
  intros Hrun.
  assert (is_os_error (KeyError key) = true) as Hos; [|done].
  eapply (create_project_structure_raise_os output _ (ans_type a) c);
    [by apply collect_has_fields| |exact Hc|exact Hrun].
  unfold ScaffoldGenerator._collect_project_info. rewrite Hconfirm.
  apply lookup_insert_eq.
Qed.

Lemma prompt_build_finds_every_key_witness :
  ScaffoldGenerator.handle_scaffold "." accepted packaged_world =
    (Raise (FileExistsError (mkPath false ["ErisPulse-Demo"; "ErisPulse_Demo"])),
     packaged_world) ∧
  ∀ key, FileExistsError (mkPath false ["ErisPulse-Demo"; "ErisPulse_Demo"])
         ≠ KeyError key.
Proof.
  split; [vm_compute; reflexivity|].
  apply (prompt_build_finds_every_key "." accepted packaged_world _ packaged_world);
    [reflexivity|apply list_elem_of_here|vm_compute; reflexivity].
Defined.
